(** * Piecewise-linear touchpad pointer acceleration

    A shallow embedding of [src/filter-touchpad-pl.c] (the "PL" touchpad
    acceleration filter of libinput) and the properties its specification
    states about it.

    Conventions of the embedding.

    - A C [double] is a real number ([R]); arithmetic is exact.  Rounding,
      infinities and NaN are outside the model.
    - [uint64_t] timestamps and the [int] dpi are integers ([Z]); the file
      only passes timestamps on and converts the dpi to [double].
    - A function that receives the filter through a non-const pointer
      returns the filter it leaves behind next to its C return value.
    - A failed [assert] and a read past the end of an array end the
      computation with a [fault]; nothing is said about what follows them.
    - The [fprintf (stderr, ...)] trace lines are not modelled.
    - The functions of other compilation units (velocity trackers, Simpson
      smoothing, dpi normalisation) are the fields of the class
      [Collaborators]; every general theorem holds for all of them. *)

From Stdlib Require Import Reals Lra List ZArith Lia.
Import ListNotations.
Open Scope R_scope.

(** ** Faults and the error monad *)

Inductive fault : Type :=
| AssertionFailed   (* assert() aborted the program *)
| OutOfBounds.      (* an array was read outside its bounds *)

Inductive result (A : Type) : Type :=
| Ok (a : A)
| Fault (f : fault).

Arguments Ok {A} a.
Arguments Fault {A} f.

Definition bind {A B : Type} (m : result A) (k : A -> result B) : result B :=
  match m with
  | Ok a => k a
  | Fault f => Fault f
  end.

Notation "x <- m ;; k" := (bind m (fun x => k))
  (at level 61, m at next level, right associativity).
Notation "' p <- m ;; k" := (bind m (fun p => k))
  (at level 61, p pattern, m at next level, right associativity).

Definition value_of {A B : Type} (m : result (A * B)) : result A :=
  match m with
  | Ok (a, _) => Ok a
  | Fault f => Fault f
  end.

(** ** Data model *)

(** [struct device_float_coords { double x, y; }] *)
Record device_float_coords : Type := {
  dfc_x : R;
  dfc_y : R
}.

(** [struct normalized_coords { double x, y; }] *)
Record normalized_coords : Type := {
  nc_x : R;
  nc_y : R
}.

(** [struct pointer_delta_smoothener], of which [create] sets
    [threshold] and [value]. *)
Record pointer_delta_smoothener : Type := {
  pds_threshold : Z;
  pds_value : Z
}.

(** [struct pointer_trackers]: the tracker history belongs to the velocity
    tracker; the [smoothener] pointer is written by this file ([None] is
    the null pointer). *)
Record pointer_trackers (H : Type) : Type := {
  pt_history : H;
  pt_smoothener : option pointer_delta_smoothener
}.

Arguments pt_history {H} _.
Arguments pt_smoothener {H} _.

(** The interface table and the profile are function pointers; each type
    has the one value this file ever stores. *)
Inductive motion_filter_interface : Type :=
| accelerator_interface_touchpad.

Inductive accel_profile_func_t : Type :=
| touchpad_accel_profile_ptr.

(** [struct motion_filter]: the base object of every filter. *)
Record motion_filter : Type := {
  mf_speed_adjustment : R;
  mf_interface : motion_filter_interface
}.

(** [struct touchpad_accelerator] *)
Record touchpad_accelerator (H : Type) : Type := {
  ta_base : motion_filter;
  ta_profile : accel_profile_func_t;
  ta_velocity : R;                  (* units/us *)
  ta_last_velocity : R;             (* units/us *)
  ta_trackers : pointer_trackers H;
  ta_threshold : R;                 (* mm/s *)
  ta_accel : R;                     (* unitless factor *)
  ta_dpi : Z;
  ta_speed_factor : R               (* factor based on speed setting *)
}.

Arguments ta_base {H} _.
Arguments ta_profile {H} _.
Arguments ta_velocity {H} _.
Arguments ta_last_velocity {H} _.
Arguments ta_trackers {H} _.
Arguments ta_threshold {H} _.
Arguments ta_accel {H} _.
Arguments ta_dpi {H} _.
Arguments ta_speed_factor {H} _.

(** Field assignments. *)

Definition set_trackers {H} (t : pointer_trackers H)
    (a : touchpad_accelerator H) : touchpad_accelerator H :=
  {| ta_base := ta_base a; ta_profile := ta_profile a;
     ta_velocity := ta_velocity a; ta_last_velocity := ta_last_velocity a;
     ta_trackers := t; ta_threshold := ta_threshold a;
     ta_accel := ta_accel a; ta_dpi := ta_dpi a;
     ta_speed_factor := ta_speed_factor a |}.

Definition set_last_velocity {H} (v : R)
    (a : touchpad_accelerator H) : touchpad_accelerator H :=
  {| ta_base := ta_base a; ta_profile := ta_profile a;
     ta_velocity := ta_velocity a; ta_last_velocity := v;
     ta_trackers := ta_trackers a; ta_threshold := ta_threshold a;
     ta_accel := ta_accel a; ta_dpi := ta_dpi a;
     ta_speed_factor := ta_speed_factor a |}.

Definition set_speed_adjustment {H} (s : R)
    (a : touchpad_accelerator H) : touchpad_accelerator H :=
  {| ta_base := {| mf_speed_adjustment := s;
                   mf_interface := mf_interface (ta_base a) |};
     ta_profile := ta_profile a;
     ta_velocity := ta_velocity a; ta_last_velocity := ta_last_velocity a;
     ta_trackers := ta_trackers a; ta_threshold := ta_threshold a;
     ta_accel := ta_accel a; ta_dpi := ta_dpi a;
     ta_speed_factor := ta_speed_factor a |}.

Definition set_speed_factor {H} (f : R)
    (a : touchpad_accelerator H) : touchpad_accelerator H :=
  {| ta_base := ta_base a; ta_profile := ta_profile a;
     ta_velocity := ta_velocity a; ta_last_velocity := ta_last_velocity a;
     ta_trackers := ta_trackers a; ta_threshold := ta_threshold a;
     ta_accel := ta_accel a; ta_dpi := ta_dpi a;
     ta_speed_factor := f |}.

(** ** The acceleration profile *)

(** [#define TP_MAGIC_SLOWDOWN 0.2968] *)
Definition TP_MAGIC_SLOWDOWN : R := 0.2968.

(** Modelled from the spec: [v_us2s], the helper of libinput's utility
    header that the spec calls [velocity_to_per_second]; it turns a
    velocity per microsecond into a velocity per second. *)
Definition v_us2s (units_per_us : R) : R := units_per_us * 1000000.0.

(** [const double points[][2]] and [const int i_max] of
    [touchpad_accel_profile]: a control point is (speed in mm/s, factor). *)
Definition points : list (R * R) := [(20.0, 0.05); (100.0, 1.00)].
Definition i_max : nat := 1.

(** [points[i]]: reading past the end of the array is a fault. *)
Definition point_at (pts : list (R * R)) (i : nat) : result (R * R) :=
  match nth_error pts i with
  | Some p => Ok p
  | None => Fault OutOfBounds
  end.

(** [while (i > 0 && points[i][0] > speed_in) i--;]
    The test [i > 0] comes first, so [points[0]] is not read. *)
Fixpoint seek_segment (pts : list (R * R)) (speed_in : R) (i : nat)
    : result nat :=
  match i with
  | O => Ok O
  | S i' =>
      p <- point_at pts i ;;
      if Rgt_dec (fst p) speed_in then seek_segment pts speed_in i'
      else Ok i
  end.

(** The body of [touchpad_accel_profile] after the unit conversion, with
    the table and [i_max] as arguments; [speed_in] is in mm/s. *)
Definition piecewise_linear (pts : list (R * R)) (imax : nat) (speed_in : R)
    : result R :=
  p_max <- point_at pts imax ;;
  if Rgt_dec speed_in (fst p_max) then Ok (snd p_max)
  else
    p_0 <- point_at pts 0 ;;
    if Rlt_dec speed_in (fst p_0) then Ok (snd p_0)
    else
      i <- seek_segment pts speed_in imax ;;
      p_i <- point_at pts i ;;
      p_i1 <- point_at pts (i + 1) ;;
      Ok (snd p_i
          + (snd p_i1 - snd p_i) * (speed_in - fst p_i)
            / (fst p_i1 - fst p_i)).

(** [touchpad_accel_profile (filter, data, speed_in, time)]: the speed
    arrives in device units/us and is converted to mm/s first. *)
Definition touchpad_accel_profile {H D : Type}
    (filter : touchpad_accelerator H) (data : D) (speed_in : R) (time : Z)
    : result R :=
  let speed_in := v_us2s speed_in * 25.4 / IZR (ta_dpi filter) in
  piecewise_linear points i_max speed_in.

(** The speed the profile looks up, for a velocity in device units/us. *)
Definition speed_mm_per_s (dpi : Z) (velocity : R) : R :=
  v_us2s velocity * 25.4 / IZR dpi.

(** ** The speed curve *)

(** The C library's [pow (x, y)] on the arguments [speed_factor] gives it:
    a base [x >= 0] and the exponent [y > 0], where [pow (0, y) = 0] and
    [pow (x, y) = exp (y * ln x)] for [x > 0]. *)
Definition libm_pow (x y : R) : R :=
  if Req_dec_T x 0 then 0 else Rpower x y.

(** [speed_factor (s)] *)
Definition speed_factor (s : R) : R :=
  let s := s + 1 in (* map to [0, 2] *)
  435837.2 + (0.04762636 - 435837.2) / (1 + libm_pow (s / 240.4549) 2.377168).

(** ** Collaborators *)

(** The functions this file calls in other compilation units.
    [caller_data] is what a [void *data] argument points to,
    [tracker_history] the tracker's part of [struct pointer_trackers].
    The profile handed to [calculate_acceleration_simpsons] already holds
    the filter it is called with. *)
Class Collaborators : Type := {
  caller_data : Type;
  tracker_history : Type;
  trackers_init : Z -> pointer_trackers tracker_history;
  trackers_feed :
    pointer_trackers tracker_history -> device_float_coords -> Z ->
    pointer_trackers tracker_history;
  trackers_velocity : pointer_trackers tracker_history -> Z -> R;
  trackers_reset :
    pointer_trackers tracker_history -> Z -> pointer_trackers tracker_history;
  calculate_acceleration_simpsons :
    (caller_data -> R -> Z -> result R) ->
    caller_data -> R -> R -> Z -> result R;
  normalize_for_dpi : device_float_coords -> Z -> normalized_coords
}.

Section Filter.

Context {C : Collaborators}.

Definition accelerator : Type := touchpad_accelerator tracker_history.

(** The call through the [profile] function pointer. *)
Definition call_profile (p : accel_profile_func_t) (filter : accelerator)
    : caller_data -> R -> Z -> result R :=
  match p with
  | touchpad_accel_profile_ptr => touchpad_accel_profile filter
  end.

(** [calculate_acceleration_factor (accel, unaccelerated, data, time)] *)
Definition calculate_acceleration_factor (accel : accelerator)
    (unaccelerated : device_float_coords) (data : caller_data) (time : Z)
    : result (R * accelerator) :=
  let accel := set_trackers
                 (trackers_feed (ta_trackers accel) unaccelerated time)
                 accel in
  let velocity := trackers_velocity (ta_trackers accel) time in
  accel_factor <- calculate_acceleration_simpsons
                    (call_profile (ta_profile accel) accel)
                    data velocity (ta_last_velocity accel) time ;;
  let accel := set_last_velocity velocity accel in
  Ok (accel_factor, accel).

(** [accelerator_filter_generic (filter, unaccelerated, data, time)] *)
Definition accelerator_filter_generic (filter : accelerator)
    (unaccelerated : device_float_coords) (data : caller_data) (time : Z)
    : result (device_float_coords * accelerator) :=
  '(accel_value, accel) <-
     calculate_acceleration_factor filter unaccelerated data time ;;
  let accelerated :=
    {| dfc_x := accel_value * dfc_x unaccelerated;
       dfc_y := accel_value * dfc_y unaccelerated |} in
  Ok (accelerated, accel).

(** [accelerator_filter_post_normalized (filter, unaccelerated, data, time)] *)
Definition accelerator_filter_post_normalized (filter : accelerator)
    (unaccelerated : device_float_coords) (data : caller_data) (time : Z)
    : result (normalized_coords * accelerator) :=
  (* Accelerate for device units, normalize afterwards *)
  '(accelerated, accel) <-
     accelerator_filter_generic filter unaccelerated data time ;;
  Ok (normalize_for_dpi accelerated (ta_dpi accel), accel).

(** [touchpad_accelerator_set_speed (filter, speed_adjustment)] *)
Definition touchpad_accelerator_set_speed (filter : accelerator)
    (speed_adjustment : R) : result (bool * accelerator) :=
  if Rge_dec speed_adjustment (-1.0) then
    if Rle_dec speed_adjustment 1.0 then
      let filter := set_speed_adjustment speed_adjustment filter in
      let filter := set_speed_factor (speed_factor speed_adjustment) filter in
      Ok (true, filter)
    else Fault AssertionFailed
  else Fault AssertionFailed.

(** [touchpad_constant_filter (filter, unaccelerated, data, time)] *)
Definition touchpad_constant_filter (filter : accelerator)
    (unaccelerated : device_float_coords) (data : caller_data) (time : Z)
    : normalized_coords * accelerator :=
  let baseline := 0.9 in
  let normalized := normalize_for_dpi unaccelerated (ta_dpi filter) in
  let normalized :=
    {| nc_x := baseline * TP_MAGIC_SLOWDOWN * nc_x normalized;
       nc_y := nc_y normalized |} in
  let normalized :=
    {| nc_x := nc_x normalized;
       nc_y := baseline * TP_MAGIC_SLOWDOWN * nc_y normalized |} in
  (normalized, filter).

(** [touchpad_accelerator_restart (filter, data, time)] *)
Definition touchpad_accelerator_restart (filter : accelerator)
    (data : caller_data) (time : Z) : accelerator :=
  set_trackers (trackers_reset (ta_trackers filter) time) filter.

(** [create_pointer_accelerator_filter_touchpad_pl]: [zalloc] hands out
    zeroed memory (and ends the program when there is none), so every
    field that is not assigned is zero. *)
Definition create_pointer_accelerator_filter_touchpad_pl (dpi : Z)
    (event_delta_smooth_threshold event_delta_smooth_value : Z)
    (use_velocity_averaging : bool) : accelerator :=
  let trackers := trackers_init (if use_velocity_averaging then 16 else 2)%Z in
  let smoothener :=
    {| pds_threshold := event_delta_smooth_threshold;
       pds_value := event_delta_smooth_value |} in
  {| ta_base := {| mf_speed_adjustment := 0;
                   mf_interface := accelerator_interface_touchpad |};
     ta_profile := touchpad_accel_profile_ptr;
     ta_velocity := 0;
     ta_last_velocity := 0.0;
     ta_trackers := {| pt_history := pt_history trackers;
                       pt_smoothener := Some smoothener |};
     ta_threshold := 130;
     ta_accel := 0;
     ta_dpi := dpi;
     ta_speed_factor := 0 |}.

(** ** The interface table

    [accelerator_interface_touchpad] binds the entry points the host
    calls: [.filter], [.filter_constant], [.restart] and [.set_speed]
    ([.destroy] ends the life of the filter and has no successor state). *)

Inductive call : Type :=
| Filter (unaccelerated : device_float_coords) (data : caller_data) (time : Z)
| FilterConstant (unaccelerated : device_float_coords) (data : caller_data)
    (time : Z)
| Restart (data : caller_data) (time : Z)
| SetSpeed (speed_adjustment : R).

Inductive reply : Type :=
| Coords (n : normalized_coords)
| Done
| Accepted (b : bool).

Definition dispatch (filter : accelerator) (c : call)
    : result (reply * accelerator) :=
  match c with
  | Filter u d t =>
      '(n, filter) <- accelerator_filter_post_normalized filter u d t ;;
      Ok (Coords n, filter)
  | FilterConstant u d t =>
      let '(n, filter) := touchpad_constant_filter filter u d t in
      Ok (Coords n, filter)
  | Restart d t => Ok (Done, touchpad_accelerator_restart filter d t)
  | SetSpeed s =>
      '(b, filter) <- touchpad_accelerator_set_speed filter s ;;
      Ok (Accepted b, filter)
  end.

(** A sequence of calls on one filter, first call first. *)
Fixpoint run (filter : accelerator) (cs : list call)
    : result (list reply * accelerator) :=
  match cs with
  | [] => Ok ([], filter)
  | c :: cs =>
      '(r, filter) <- dispatch filter c ;;
      '(rs, filter) <- run filter cs ;;
      Ok (r :: rs, filter)
  end.

(** Calls of the constant-mode entry point, and a sequence without them. *)
Definition is_constant (c : call) : bool :=
  match c with
  | FilterConstant _ _ _ => true
  | _ => false
  end.

Definition without_constant (cs : list call) : list call :=
  filter (fun c => negb (is_constant c)) cs.

(** The replies to the calls that are not constant-mode evaluations. *)
Fixpoint other_replies (cs : list call) (rs : list reply) : list reply :=
  match cs, rs with
  | c :: cs, r :: rs =>
      if is_constant c then other_replies cs rs
      else r :: other_replies cs rs
  | _, _ => []
  end.

(** The speed preference of the last [SetSpeed] call of a sequence. *)
Fixpoint last_preference (cs : list call) : option R :=
  match cs with
  | [] => None
  | c :: cs =>
      match last_preference cs with
      | Some s => Some s
      | None => match c with
                | SetSpeed s => Some s
                | _ => None
                end
      end
  end.

End Filter.

(** ** Reference collaborators *)

(** Modelled from the spec: the VelocityTracker collaborator
    ([trackers_init], [trackers_feed], [trackers_velocity],
    [trackers_reset]), which "ingests timestamped raw deltas, returns a
    current velocity estimate", has "a fixed history depth" and whose
    reset leaves "a zero/empty state anchored at timestamp".  The
    reference tracker keeps the newest [depth] samples and the anchor
    time; its estimate is the length of the newest delta over the
    microseconds since the sample before it (or since the anchor),
    counting the current one, in device units/us. *)
Record reference_history : Type := {
  rh_depth : Z;
  rh_anchor : Z;
  rh_samples : list (device_float_coords * Z)
}.

Definition reference_init (ntrackers : Z)
    : pointer_trackers reference_history :=
  {| pt_history := {| rh_depth := ntrackers; rh_anchor := 0; rh_samples := [] |};
     pt_smoothener := None |}.

Definition reference_feed (t : pointer_trackers reference_history)
    (delta : device_float_coords) (time : Z)
    : pointer_trackers reference_history :=
  let h := pt_history t in
  {| pt_history :=
       {| rh_depth := rh_depth h;
          rh_anchor := rh_anchor h;
          rh_samples :=
            firstn (Z.to_nat (rh_depth h)) ((delta, time) :: rh_samples h) |};
     pt_smoothener := pt_smoothener t |}.

Definition reference_reset (t : pointer_trackers reference_history) (time : Z)
    : pointer_trackers reference_history :=
  let h := pt_history t in
  {| pt_history :=
       {| rh_depth := rh_depth h; rh_anchor := time; rh_samples := [] |};
     pt_smoothener := pt_smoothener t |}.

Definition reference_velocity (t : pointer_trackers reference_history)
    (time : Z) : R :=
  let h := pt_history t in
  match rh_samples h with
  | [] => 0
  | (delta, _) :: older =>
      let since := match older with
                   | [] => rh_anchor h
                   | (_, before) :: _ => before
                   end in
      sqrt (dfc_x delta * dfc_x delta + dfc_y delta * dfc_y delta)
      / IZR ((time - since + 1) mod 2 ^ 64)
  end.

(** Modelled from the spec: [calculate_acceleration_simpsons], the
    FactorSmoother collaborator, "a numerical-integration-based smoothing
    step" "using both current and previous velocity": Simpson's rule
    over the profile between the previous and the current velocity. *)
Definition reference_simpsons {D : Type} (profile : D -> R -> Z -> result R)
    (data : D) (velocity last_velocity : R) (time : Z) : result R :=
  f_cur <- profile data velocity time ;;
  f_last <- profile data last_velocity time ;;
  f_mid <- profile data ((last_velocity + velocity) / 2) time ;;
  Ok ((f_cur + f_last + 4.0 * f_mid) / 6.0).

(** Modelled from the spec: [normalize_for_dpi], the "coordinate
    normalization to/from device-DPI space": a delta of a device of [dpi]
    counts per inch becomes the delta of a 1000 dpi device. *)
Definition reference_normalize (coords : device_float_coords) (dpi : Z)
    : normalized_coords :=
  {| nc_x := dfc_x coords * 1000 / IZR dpi;
     nc_y := dfc_y coords * 1000 / IZR dpi |}.

#[local] Instance reference : Collaborators := {|
  caller_data := unit;
  tracker_history := reference_history;
  trackers_init := reference_init;
  trackers_feed := reference_feed;
  trackers_velocity := reference_velocity;
  trackers_reset := reference_reset;
  calculate_acceleration_simpsons := @reference_simpsons unit;
  normalize_for_dpi := reference_normalize
|}.

(** Concrete filters and a delta for the examples: new filters of 400
    and of 254 dpi without velocity averaging, and five device units to
    the right. *)
Definition new_400 : @accelerator reference :=
  create_pointer_accelerator_filter_touchpad_pl 400 0 0 false.

Definition new_254 : @accelerator reference :=
  create_pointer_accelerator_filter_touchpad_pl 254 0 0 false.

Definition right_5 : device_float_coords := {| dfc_x := 5; dfc_y := 0 |}.

(** * Properties *)

(** ** Control-point tables *)

Definition speeds_increasing (pts : list (R * R)) : Prop :=
  forall i j p q, (i < j)%nat ->
    nth_error pts i = Some p -> nth_error pts j = Some q -> fst p < fst q.

Definition factors_non_decreasing (pts : list (R * R)) : Prop :=
  forall i j p q, (i <= j)%nat ->
    nth_error pts i = Some p -> nth_error pts j = Some q -> snd p <= snd q.

(** The linear interpolation between two control points. *)
Definition interpolate (p q : R * R) (speed : R) : R :=
  snd p + (snd q - snd p) * (speed - fst p) / (fst q - fst p).

Lemma point_at_Some pts i p :
  nth_error pts i = Some p -> point_at pts i = Ok p.
Proof. unfold point_at. now intros ->. Qed.

Lemma point_at_beyond pts i :
  (length pts <= i)%nat -> point_at pts i = Fault OutOfBounds.
Proof.
  intros Hi. unfold point_at.
  now rewrite (proj2 (nth_error_None pts i) Hi).
Qed.

Lemma point_at_inv pts i p :
  point_at pts i = Ok p -> nth_error pts i = Some p.
Proof.
  unfold point_at. destruct (nth_error pts i); congruence.
Qed.

Lemma points_increasing : speeds_increasing points.
Proof.
  intros i j p q Hij Hp Hq.
  destruct i as [|[|i]], j as [|[|j]]; simpl in *; try lia;
    try (destruct i; discriminate); try (destruct j; discriminate).
  injection Hp as <-. injection Hq as <-. simpl. lra.
Qed.

Lemma points_non_decreasing : factors_non_decreasing points.
Proof.
  intros i j p q Hij Hp Hq.
  destruct i as [|[|i]], j as [|[|j]]; simpl in *; try lia;
    try (destruct i; discriminate); try (destruct j; discriminate);
    injection Hp as <-; injection Hq as <-; simpl; lra.
Qed.

(** The loop stops at the highest index not above [k] whose speed is
    not greater than [speed], or at 0. *)
Lemma seek_segment_spec pts speed k :
  (k < length pts)%nat ->
  exists i, seek_segment pts speed k = Ok i /\ (i <= k)%nat /\
    (forall j p, (i < j <= k)%nat -> nth_error pts j = Some p ->
                 fst p > speed) /\
    (i <> 0%nat -> exists p, nth_error pts i = Some p /\ ~ fst p > speed).
Proof.
  induction k as [|k IH]; intros Hk.
  - exists 0%nat. simpl. repeat split; intros; lia.
  - destruct (nth_error pts (S k)) as [p|] eqn:Hp.
    2:{ apply nth_error_None in Hp. lia. }
    cbn [seek_segment]. rewrite (point_at_Some _ _ _ Hp). cbn [bind].
    destruct (Rgt_dec (fst p) speed) as [Hgt|Hle].
    + destruct IH as (i & Hs & Hik & Habove & Hat); [lia|].
      exists i. repeat split; trivial; try lia.
      intros j q Hj Hq.
      destruct (Nat.eq_dec j (S k)) as [->|Hne].
      * rewrite Hp in Hq. injection Hq as <-. exact Hgt.
      * apply (Habove j q); trivial. lia.
    + exists (S k). repeat split; try (intros; lia).
      intros _. exists p. split; trivial.
Qed.

Lemma speeds_increasing_le pts i j p q :
  speeds_increasing pts -> (i <= j)%nat ->
  nth_error pts i = Some p -> nth_error pts j = Some q -> fst p <= fst q.
Proof.
  intros Hinc Hij Hp Hq.
  destruct (Nat.eq_dec i j) as [->|Hne].
  - rewrite Hp in Hq. injection Hq as <-. lra.
  - apply Rlt_le, (Hinc i j); trivial. lia.
Qed.

Lemma nth_error_last_index {A} (l : list A) i x :
  nth_error l i = Some x -> exists y, nth_error l (length l - 1) = Some y.
Proof.
  intros Hi.
  assert (Hlen : (i < length l)%nat) by (apply nth_error_Some; congruence).
  destruct (nth_error l (length l - 1)) as [y|] eqn:Hy; [now exists y|].
  apply nth_error_None in Hy. lia.
Qed.

Lemma nth_error_first_index {A} (l : list A) i x :
  nth_error l i = Some x -> exists y, nth_error l 0 = Some y.
Proof.
  destruct l as [|y l]; [destruct i; discriminate|]. now exists y.
Qed.

(** Above the last control point the profile is the last factor. *)
Lemma piecewise_linear_above pts imax pm speed :
  nth_error pts imax = Some pm -> speed > fst pm ->
  piecewise_linear pts imax speed = Ok (snd pm).
Proof.
  intros Hm Hgt. unfold piecewise_linear.
  rewrite (point_at_Some _ _ _ Hm). cbn [bind].
  destruct (Rgt_dec speed (fst pm)); [reflexivity|contradiction].
Qed.

(** Below the first control point the profile is the first factor. *)
Lemma piecewise_linear_below pts imax pm p0 speed :
  nth_error pts imax = Some pm -> nth_error pts 0 = Some p0 ->
  ~ speed > fst pm -> speed < fst p0 ->
  piecewise_linear pts imax speed = Ok (snd p0).
Proof.
  intros Hm H0 Hngt Hlt. unfold piecewise_linear.
  rewrite (point_at_Some _ _ _ Hm). cbn [bind].
  destruct (Rgt_dec speed (fst pm)); [contradiction|].
  rewrite (point_at_Some _ _ _ H0). cbn [bind].
  destruct (Rlt_dec speed (fst p0)); [reflexivity|contradiction].
Qed.

(** From a control point up to, but not including, the next one the
    profile interpolates between the two. *)
Lemma piecewise_linear_between pts i p q speed :
  speeds_increasing pts ->
  nth_error pts i = Some p -> nth_error pts (i + 1) = Some q ->
  fst p <= speed < fst q ->
  piecewise_linear pts (length pts - 1) speed = Ok (interpolate p q speed).
Proof.
  intros Hinc Hp Hq [Hlo Hhi].
  assert (Hlen : (i + 1 < length pts)%nat)
    by (apply nth_error_Some; congruence).
  destruct (nth_error_last_index _ _ _ Hq) as [pm Hm].
  destruct (nth_error_first_index _ _ _ Hp) as [p0 H0].
  assert (Hqm : fst q <= fst pm)
    by (apply (speeds_increasing_le pts (i + 1) (length pts - 1));
        trivial; lia).
  assert (H0p : fst p0 <= fst p)
    by (apply (speeds_increasing_le pts 0 i); trivial; lia).
  unfold piecewise_linear.
  rewrite (point_at_Some _ _ _ Hm). cbn [bind].
  destruct (Rgt_dec speed (fst pm)) as [Hgt|_]; [lra|].
  rewrite (point_at_Some _ _ _ H0). cbn [bind].
  destruct (Rlt_dec speed (fst p0)) as [Hlt|_]; [lra|].
  destruct (seek_segment_spec pts speed (length pts - 1))
    as (i' & Hseek & Hi' & Habove & Hat); [lia|].
  assert (i' = i) as ->.
  { destruct (Nat.lt_trichotomy i' i) as [Hlt|[Heq|Hgt]]; trivial.
    - specialize (Habove i p). assert (fst p > speed) by (apply Habove; trivial; lia).
      lra.
    - destruct Hat as (r & Hr & Hnr); [lia|].
      assert (fst q <= fst r)
        by (apply (speeds_increasing_le pts (i + 1) i'); trivial; lia).
      lra. }
  rewrite Hseek. cbn [bind].
  rewrite (point_at_Some _ _ _ Hp). cbn [bind].
  rewrite (point_at_Some _ _ _ Hq). cbn [bind].
  reflexivity.
Qed.

(** At the speed of the last control point itself the comparison
    [speed_in > points[i_max][0]] fails, the loop leaves [i = i_max], and
    the interpolation reads [points[i_max + 1]], past the end of the table. *)
Lemma piecewise_linear_at_last pts pm :
  speeds_increasing pts ->
  nth_error pts (length pts - 1) = Some pm ->
  piecewise_linear pts (length pts - 1) (fst pm) = Fault OutOfBounds.
Proof.
  intros Hinc Hm.
  assert (Hlen : (length pts - 1 < length pts)%nat)
    by (apply nth_error_Some; congruence).
  destruct (nth_error_first_index _ _ _ Hm) as [p0 H0].
  assert (H0m : fst p0 <= fst pm)
    by (apply (speeds_increasing_le pts 0 (length pts - 1)); trivial; lia).
  unfold piecewise_linear.
  rewrite (point_at_Some _ _ _ Hm). cbn [bind].
  destruct (Rgt_dec (fst pm) (fst pm)) as [Hgt|_]; [lra|].
  rewrite (point_at_Some _ _ _ H0). cbn [bind].
  destruct (Rlt_dec (fst pm) (fst p0)) as [Hlt|_]; [lra|].
  assert (Hseek : seek_segment pts (fst pm) (length pts - 1)
                  = Ok (length pts - 1)%nat).
  { destruct (length pts - 1)%nat as [|k] eqn:Hk; [reflexivity|].
    cbn [seek_segment]. rewrite (point_at_Some _ _ _ Hm). cbn [bind].
    destruct (Rgt_dec (fst pm) (fst pm)) as [Hgt|_]; [lra|reflexivity]. }
  rewrite Hseek. cbn [bind].
  rewrite (point_at_Some _ _ _ Hm). cbn [bind].
  rewrite point_at_beyond; [reflexivity|lia].
Qed.

(** The profile of the embedded table, by converted speed. *)

Lemma embedded_above speed :
  speed > 100 -> piecewise_linear points i_max speed = Ok 1.00.
Proof.
  intros H. apply (piecewise_linear_above points i_max (100.0, 1.00));
    [reflexivity|simpl; lra].
Qed.

Lemma embedded_below speed :
  speed < 20 -> piecewise_linear points i_max speed = Ok 0.05.
Proof.
  intros H.
  apply (piecewise_linear_below points i_max (100.0, 1.00) (20.0, 0.05));
    try reflexivity; simpl; lra.
Qed.

Lemma embedded_between speed :
  20 <= speed < 100 ->
  piecewise_linear points i_max speed
  = Ok (0.05 + (1.00 - 0.05) * (speed - 20.0) / (100.0 - 20.0)).
Proof.
  intros H.
  apply (piecewise_linear_between points 0 (20.0, 0.05) (100.0, 1.00));
    try reflexivity; [exact points_increasing|simpl; lra].
Qed.

Lemma embedded_at_last :
  piecewise_linear points i_max 100 = Fault OutOfBounds.
Proof.
  replace 100 with (fst (100.0, 1.00)) by (simpl; lra).
  apply (piecewise_linear_at_last points (100.0, 1.00));
    [exact points_increasing|reflexivity].
Qed.

(** *** Interpolation is monotone *)

Lemma interpolate_mono p q u v :
  fst p < fst q -> snd p <= snd q -> u <= v ->
  interpolate p q u <= interpolate p q v.
Proof.
  intros Hs Hf Huv. unfold interpolate, Rdiv.
  apply Rplus_le_compat_l, Rmult_le_compat_r.
  - apply Rlt_le, Rinv_0_lt_compat. lra.
  - apply Rmult_le_compat_l; lra.
Qed.

Lemma interpolate_at_first p q :
  interpolate p q (fst p) = snd p.
Proof. unfold interpolate, Rdiv. ring. Qed.

Lemma interpolate_at_second p q :
  fst p < fst q -> interpolate p q (fst q) = snd q.
Proof. intros Hs. unfold interpolate. field. lra. Qed.

Lemma interpolate_bounds p q speed :
  fst p < fst q -> snd p <= snd q -> fst p <= speed <= fst q ->
  snd p <= interpolate p q speed <= snd q.
Proof.
  intros Hs Hf [Hlo Hhi]. split.
  - apply Rle_trans with (interpolate p q (fst p)).
    + rewrite interpolate_at_first. lra.
    + now apply interpolate_mono.
  - apply Rle_trans with (interpolate p q (fst q)).
    + now apply interpolate_mono.
    + rewrite (interpolate_at_second p q Hs). lra.
Qed.

(** Every factor the profile returns comes from one of its three
    branches. *)
Lemma piecewise_linear_inv pts speed f :
  piecewise_linear pts (length pts - 1) speed = Ok f ->
  exists pm p0,
    nth_error pts (length pts - 1) = Some pm /\ nth_error pts 0 = Some p0 /\
    ((speed > fst pm /\ f = snd pm) \/
     (~ speed > fst pm /\ speed < fst p0 /\ f = snd p0) \/
     (exists i p q,
        nth_error pts i = Some p /\ nth_error pts (i + 1) = Some q /\
        fst p <= speed < fst q /\ f = interpolate p q speed)).
Proof.
  unfold piecewise_linear. intros Hf.
  destruct (point_at pts (length pts - 1)) as [pm|] eqn:Hm; [|discriminate].
  apply point_at_inv in Hm. cbn [bind] in Hf.
  destruct (nth_error_first_index _ _ _ Hm) as [p0 H0].
  exists pm, p0. split; [exact Hm|]. split; [exact H0|].
  destruct (Rgt_dec speed (fst pm)) as [Hgt|Hngt].
  { left. split; [exact Hgt|]. congruence. }
  rewrite (point_at_Some _ _ _ H0) in Hf. cbn [bind] in Hf.
  destruct (Rlt_dec speed (fst p0)) as [Hlt|Hnlt].
  { right; left. repeat split; trivial. congruence. }
  right; right.
  assert (Hlen : (length pts - 1 < length pts)%nat)
    by (apply nth_error_Some; congruence).
  destruct (seek_segment_spec pts speed _ Hlen)
    as (i & Hseek & Hi & Habove & Hat).
  rewrite Hseek in Hf. cbn [bind] in Hf.
  destruct (point_at pts i) as [p|] eqn:Hp; [|discriminate].
  apply point_at_inv in Hp. cbn [bind] in Hf.
  destruct (point_at pts (i + 1)) as [q|] eqn:Hq; [|discriminate].
  apply point_at_inv in Hq. cbn [bind] in Hf.
  exists i, p, q. repeat split; trivial.
  - destruct (Nat.eq_dec i 0) as [->|Hne].
    + rewrite H0 in Hp. injection Hp as <-. lra.
    + destruct (Hat Hne) as (r & Hr & Hnr).
      rewrite Hp in Hr. injection Hr as <-. lra.
  - assert (Hq' : (i + 1 < length pts)%nat)
      by (apply nth_error_Some; congruence).
    apply Rgt_lt, (Habove (i + 1)%nat q); trivial. lia.
  - unfold interpolate. congruence.
Qed.

(** The profile is defined at every speed but that of the last control
    point. *)
Lemma piecewise_linear_defined pts pm speed :
  speeds_increasing pts ->
  nth_error pts (length pts - 1) = Some pm -> speed <> fst pm ->
  exists f, piecewise_linear pts (length pts - 1) speed = Ok f.
Proof.
  intros Hinc Hm Hne.
  destruct (nth_error_first_index _ _ _ Hm) as [p0 H0].
  assert (Hlen : (length pts - 1 < length pts)%nat)
    by (apply nth_error_Some; congruence).
  assert (H0m : fst p0 <= fst pm)
    by (apply (speeds_increasing_le pts 0 (length pts - 1)); trivial; lia).
  destruct (Rgt_dec speed (fst pm)) as [Hgt|Hngt].
  { exists (snd pm). now apply piecewise_linear_above. }
  destruct (Rlt_dec speed (fst p0)) as [Hlt|Hnlt].
  { exists (snd p0). now apply (piecewise_linear_below pts _ pm). }
  destruct (seek_segment_spec pts speed _ Hlen)
    as (i & Hseek & Hi & Habove & Hat).
  assert (Hilt : (i < length pts - 1)%nat).
  { destruct (Nat.eq_dec i (length pts - 1)) as [->|Hd]; [|lia].
    destruct (Nat.eq_dec (length pts - 1) 0) as [Hz|Hnz].
    - rewrite Hz in Hm. rewrite H0 in Hm. injection Hm as <-. lra.
    - destruct (Hat Hnz) as (r & Hr & Hnr).
      rewrite Hm in Hr. injection Hr as <-. lra. }
  destruct (nth_error pts i) as [p|] eqn:Hp.
  2:{ apply nth_error_None in Hp. lia. }
  destruct (nth_error pts (i + 1)) as [q|] eqn:Hq.
  2:{ apply nth_error_None in Hq. lia. }
  exists (interpolate p q speed).
  apply (piecewise_linear_between pts i); trivial. split.
  - destruct (Nat.eq_dec i 0) as [->|Hnz].
    + rewrite H0 in Hp. injection Hp as <-. lra.
    + destruct (Hat Hnz) as (r & Hr & Hnr).
      assert (r = p) by congruence. subst r. lra.
  - apply Rgt_lt, (Habove (i + 1)%nat q); trivial. lia.
Qed.

(** Every factor lies between the first and the last one. *)
Lemma piecewise_linear_range pts speed f pm p0 :
  speeds_increasing pts -> factors_non_decreasing pts ->
  nth_error pts (length pts - 1) = Some pm -> nth_error pts 0 = Some p0 ->
  piecewise_linear pts (length pts - 1) speed = Ok f ->
  snd p0 <= f <= snd pm.
Proof.
  intros Hinc Hnd Hm H0 Hf.
  assert (Hlen : (length pts - 1 < length pts)%nat)
    by (apply nth_error_Some; congruence).
  assert (H0m : snd p0 <= snd pm)
    by (apply (Hnd 0%nat (length pts - 1)%nat); trivial; lia).
  destruct (piecewise_linear_inv _ _ _ Hf)
    as (pm' & p0' & Hm' & H0' & Hcases).
  rewrite Hm in Hm'. injection Hm' as <-.
  rewrite H0 in H0'. injection H0' as <-.
  destruct Hcases as [[_ ->]|[(_ & _ & ->)|(i & p & q & Hp & Hq & Hs & ->)]];
    try lra.
  assert (Hq' : (i + 1 < length pts)%nat)
    by (apply nth_error_Some; congruence).
  assert (fst p < fst q) by (apply (Hinc i (i + 1)%nat); trivial; lia).
  assert (snd p <= snd q) by (apply (Hnd i (i + 1)%nat); trivial; lia).
  assert (snd p0 <= snd p) by (apply (Hnd 0%nat i); trivial; lia).
  assert (snd q <= snd pm)
    by (apply (Hnd (i + 1)%nat (length pts - 1)%nat); trivial; lia).
  assert (snd p <= interpolate p q speed <= snd q)
    by (apply interpolate_bounds; trivial; lra).
  lra.
Qed.

(** With non-decreasing factors the profile is monotone wherever it is
    defined. *)
Lemma piecewise_linear_monotone pts u v fu fv :
  speeds_increasing pts -> factors_non_decreasing pts -> u <= v ->
  piecewise_linear pts (length pts - 1) u = Ok fu ->
  piecewise_linear pts (length pts - 1) v = Ok fv ->
  fu <= fv.
Proof.
  intros Hinc Hnd Huv Hu Hv.
  destruct (piecewise_linear_inv _ _ _ Hu) as (pm & p0 & Hm & H0 & Hcu).
  destruct (piecewise_linear_inv _ _ _ Hv) as (pm' & p0' & Hm' & H0' & Hcv).
  rewrite Hm in Hm'. injection Hm' as <-.
  rewrite H0 in H0'. injection H0' as <-.
  pose proof (piecewise_linear_range _ _ _ _ _ Hinc Hnd Hm H0 Hu) as Hru.
  pose proof (piecewise_linear_range _ _ _ _ _ Hinc Hnd Hm H0 Hv) as Hrv.
  destruct Hcv as [[_ ->]|[(Hv1 & Hv2 & ->)|(j & r & s & Hr & Hs & Hvs & ->)]];
    [lra| |].
  - destruct Hcu as [[Hu1 ->]|[(_ & _ & ->)|(i & p & q & Hp & Hq & Hus & ->)]];
      [lra|lra|].
    assert (fst p0 <= fst p)
      by (apply (speeds_increasing_le pts 0 i); trivial; lia).
    lra.
  - destruct Hcu as [[Hu1 ->]|[(_ & _ & ->)|(i & p & q & Hp & Hq & Hus & ->)]];
      [|lra|].
    + assert (Hs' : (j + 1 < length pts)%nat)
        by (apply nth_error_Some; congruence).
      assert (fst s <= fst pm)
        by (apply (speeds_increasing_le pts (j + 1) (length pts - 1));
            trivial; lia).
      lra.
    + assert (Hq' : (i + 1 < length pts)%nat)
        by (apply nth_error_Some; congruence).
      assert (Hs' : (j + 1 < length pts)%nat)
        by (apply nth_error_Some; congruence).
      assert (Hpq : fst p < fst q)
        by (apply (Hinc i (i + 1)%nat); trivial; lia).
      assert (Hrs : fst r < fst s)
        by (apply (Hinc j (j + 1)%nat); trivial; lia).
      assert (Hfpq : snd p <= snd q)
        by (apply (Hnd i (i + 1)%nat); trivial; lia).
      assert (Hfrs : snd r <= snd s)
        by (apply (Hnd j (j + 1)%nat); trivial; lia).
      destruct (Nat.lt_trichotomy i j) as [Hlt|[Heq|Hgt]].
      * assert (snd q <= snd r) by (apply (Hnd (i + 1)%nat j); trivial; lia).
        assert (snd p <= interpolate p q u <= snd q)
          by (apply interpolate_bounds; trivial; lra).
        assert (snd r <= interpolate r s v <= snd s)
          by (apply interpolate_bounds; trivial; lra).
        lra.
      * subst j. rewrite Hp in Hr. injection Hr as <-.
        rewrite Hq in Hs. injection Hs as <-.
        now apply interpolate_mono.
      * assert (fst s <= fst p)
          by (apply (speeds_increasing_le pts (j + 1) i); trivial; lia).
        lra.
Qed.

(** ** The profile of the filter *)

Lemma touchpad_accel_profile_eq {H D} (filter : touchpad_accelerator H)
    (data : D) (velocity : R) (time : Z) :
  touchpad_accel_profile filter data velocity time
  = piecewise_linear points i_max (speed_mm_per_s (ta_dpi filter) velocity).
Proof. reflexivity. Qed.

(** Above the last control point the profile returns the last factor. *)
Lemma touchpad_accel_profile_above_last {H D}
    (filter : touchpad_accelerator H) (data : D) (velocity : R) (time : Z) :
  speed_mm_per_s (ta_dpi filter) velocity > 100 ->
  touchpad_accel_profile filter data velocity time = Ok 1.00.
Proof. intros Hs. rewrite touchpad_accel_profile_eq. now apply embedded_above. Qed.

(** Up to the first control point the profile returns the first factor. *)
Lemma touchpad_accel_profile_up_to_first {H D}
    (filter : touchpad_accelerator H) (data : D) (velocity : R) (time : Z) :
  speed_mm_per_s (ta_dpi filter) velocity <= 20 ->
  touchpad_accel_profile filter data velocity time = Ok 0.05.
Proof.
  intros Hs. rewrite touchpad_accel_profile_eq.
  destruct (Rlt_dec (speed_mm_per_s (ta_dpi filter) velocity) 20) as [Hlt|Hge].
  - now apply embedded_below.
  - rewrite embedded_between by lra. f_equal. lra.
Qed.

(** The profile is monotone in the converted speed away from the speed
    of the last control point, where it has no value. *)
Lemma touchpad_accel_profile_monotone {H D}
    (filter : touchpad_accelerator H) (data : D) (u v : R) (time : Z) fu fv :
  speed_mm_per_s (ta_dpi filter) u <= speed_mm_per_s (ta_dpi filter) v ->
  touchpad_accel_profile filter data u time = Ok fu ->
  touchpad_accel_profile filter data v time = Ok fv ->
  fu <= fv.
Proof.
  rewrite !touchpad_accel_profile_eq. intros Huv Hu Hv.
  exact (piecewise_linear_monotone points _ _ fu fv points_increasing
           points_non_decreasing Huv Hu Hv).
Qed.

Lemma touchpad_accel_profile_defined {H D}
    (filter : touchpad_accelerator H) (data : D) (velocity : R) (time : Z) :
  speed_mm_per_s (ta_dpi filter) velocity <> 100 ->
  exists f, touchpad_accel_profile filter data velocity time = Ok f.
Proof.
  intros Hne. rewrite touchpad_accel_profile_eq.
  apply (piecewise_linear_defined points (100.0, 1.00));
    [exact points_increasing|reflexivity|simpl; lra].
Qed.

(** C3.  For a converted speed strictly between the speeds of two
    adjacent control points the profile returns the linear interpolation
    between them, f_i + (f_i+1 - f_i) * (speed - s_i) / (s_i+1 - s_i). *)
Theorem touchpad_accel_profile_interpolates {H D}
    (filter : touchpad_accelerator H) (data : D) (velocity : R) (time : Z)
    (i : nat) (p q : R * R) :
  nth_error points i = Some p -> nth_error points (i + 1) = Some q ->
  fst p < speed_mm_per_s (ta_dpi filter) velocity < fst q ->
  touchpad_accel_profile filter data velocity time
  = Ok (snd p
        + (snd q - snd p) * (speed_mm_per_s (ta_dpi filter) velocity - fst p)
          / (fst q - fst p)).
Proof.
  intros Hp Hq Hs. rewrite touchpad_accel_profile_eq.
  apply (piecewise_linear_between points i p q); trivial.
  - exact points_increasing.
  - lra.
Qed.

(** C2, at the boundary.  When the converted speed equals the speed of
    the last control point, 100 mm/s, the profile does not return the
    last factor: it reads [points[2]], outside the table. *)
Theorem touchpad_accel_profile_at_last_point {H D}
    (filter : touchpad_accelerator H) (data : D) (velocity : R) (time : Z) :
  speed_mm_per_s (ta_dpi filter) velocity = 100 ->
  touchpad_accel_profile filter data velocity time = Fault OutOfBounds.
Proof.
  intros Hs. rewrite touchpad_accel_profile_eq, Hs. exact embedded_at_last.
Qed.

(** ** The filter, for all collaborators *)

Section FilterProperties.

Context {C : Collaborators}.

Lemma profile_depends_on_dpi (f g : accelerator) :
  ta_dpi f = ta_dpi g ->
  call_profile (ta_profile f) f = call_profile (ta_profile g) g.
Proof.
  intros Hdpi. destruct (ta_profile f), (ta_profile g).
  unfold call_profile, touchpad_accel_profile. now rewrite Hdpi.
Qed.

(** What [calculate_acceleration_factor] computes and leaves behind. *)
Lemma calculate_acceleration_factor_eq (filter : accelerator) u data time :
  let trackers := trackers_feed (ta_trackers filter) u time in
  let velocity := trackers_velocity trackers time in
  calculate_acceleration_factor filter u data time
  = (accel_factor <- calculate_acceleration_simpsons
                       (call_profile (ta_profile filter) filter)
                       data velocity (ta_last_velocity filter) time ;;
     Ok (accel_factor,
         set_last_velocity velocity (set_trackers trackers filter))).
Proof.
  unfold calculate_acceleration_factor. cbv zeta.
  rewrite (profile_depends_on_dpi
             (set_trackers (trackers_feed (ta_trackers filter) u time) filter)
             filter) by reflexivity.
  reflexivity.
Qed.

Lemma calculate_acceleration_factor_inv (filter filter' : accelerator)
    u data time accel_factor :
  calculate_acceleration_factor filter u data time
  = Ok (accel_factor, filter') ->
  filter' = set_last_velocity
              (trackers_velocity
                 (trackers_feed (ta_trackers filter) u time) time)
              (set_trackers (trackers_feed (ta_trackers filter) u time)
                 filter).
Proof.
  rewrite calculate_acceleration_factor_eq.
  destruct (calculate_acceleration_simpsons _ _ _ _ _); cbn [bind];
    congruence.
Qed.

Lemma accelerator_filter_generic_inv (filter filter' : accelerator)
    u data time accelerated :
  accelerator_filter_generic filter u data time = Ok (accelerated, filter') ->
  exists accel_value,
    calculate_acceleration_factor filter u data time
    = Ok (accel_value, filter') /\
    accelerated = {| dfc_x := accel_value * dfc_x u;
                     dfc_y := accel_value * dfc_y u |}.
Proof.
  unfold accelerator_filter_generic.
  destruct (calculate_acceleration_factor filter u data time)
    as [[accel_value accel]|]; cbn [bind]; [|discriminate].
  intros Heq. injection Heq as <- <-. now exists accel_value.
Qed.

Lemma accelerator_filter_post_normalized_inv (filter filter' : accelerator)
    u data time n :
  accelerator_filter_post_normalized filter u data time = Ok (n, filter') ->
  exists accelerated,
    accelerator_filter_generic filter u data time = Ok (accelerated, filter')
    /\ n = normalize_for_dpi accelerated (ta_dpi filter').
Proof.
  unfold accelerator_filter_post_normalized.
  destruct (accelerator_filter_generic filter u data time)
    as [[accelerated accel]|]; cbn [bind]; [|discriminate].
  intros Heq. injection Heq as <- <-. now exists accelerated.
Qed.

(** The speed factor and the speed adjustment do not enter the
    accelerated evaluation: the delta is scaled by the smoothed profile
    factor alone. *)
Lemma calculate_acceleration_factor_ignores_speed (filter : accelerator)
    s f u data time :
  value_of (calculate_acceleration_factor
              (set_speed_factor f (set_speed_adjustment s filter))
              u data time)
  = value_of (calculate_acceleration_factor filter u data time).
Proof.
  rewrite !calculate_acceleration_factor_eq.
  cbn [ta_trackers ta_last_velocity set_speed_factor set_speed_adjustment].
  rewrite (profile_depends_on_dpi
             (set_speed_factor f (set_speed_adjustment s filter)) filter)
    by reflexivity.
  destruct (calculate_acceleration_simpsons _ _ _ _ _); reflexivity.
Qed.

Lemma accelerator_filter_generic_ignores_speed (filter : accelerator)
    s f u data time :
  value_of (accelerator_filter_generic
              (set_speed_factor f (set_speed_adjustment s filter))
              u data time)
  = value_of (accelerator_filter_generic filter u data time).
Proof.
  pose proof (calculate_acceleration_factor_ignores_speed filter s f u data
                time) as Hf.
  unfold accelerator_filter_generic.
  destruct (calculate_acceleration_factor
              (set_speed_factor f (set_speed_adjustment s filter)) u data time)
    as [[v1 a1]|e1];
  destruct (calculate_acceleration_factor filter u data time)
    as [[v2 a2]|e2]; cbn [bind value_of] in *; congruence.
Qed.

(** [set_speed] either stores the preference and its factor, or aborts. *)
Lemma touchpad_accelerator_set_speed_inv (filter filter' : accelerator) s b :
  touchpad_accelerator_set_speed filter s = Ok (b, filter') ->
  -1 <= s <= 1 /\ b = true /\
  filter' = set_speed_factor (speed_factor s) (set_speed_adjustment s filter).
Proof.
  unfold touchpad_accelerator_set_speed.
  destruct (Rge_dec s (-1.0)); [|discriminate].
  destruct (Rle_dec s 1.0); [|discriminate].
  intros Heq. injection Heq as <- <-. repeat split; lra.
Qed.

(** C6.  [setSpeed] aborts on its assertion for every preference outside
    [-1, 1]; for every preference in [-1, 1] it returns true and sets the
    speed factor to A + (B - A) / (1 + ((preference + 1) / C) ^ D) with
    A = 435837.2, B = 0.04762636, C = 240.4549 and D = 2.377168. *)
Theorem touchpad_accelerator_set_speed_spec (filter : accelerator)
    (preference : R) :
  (-1 <= preference <= 1 ->
   exists filter',
     touchpad_accelerator_set_speed filter preference = Ok (true, filter') /\
     ta_speed_factor filter'
     = 435837.2 + (0.04762636 - 435837.2)
                  / (1 + libm_pow ((preference + 1) / 240.4549) 2.377168))
  /\
  (~ -1 <= preference <= 1 ->
   touchpad_accelerator_set_speed filter preference = Fault AssertionFailed).
Proof.
  unfold touchpad_accelerator_set_speed. split.
  - intros [Hlo Hhi].
    destruct (Rge_dec preference (-1.0)) as [_|Hn]; [|lra].
    destruct (Rle_dec preference 1.0) as [_|Hn]; [|lra].
    eexists. split; reflexivity.
  - intros Hout.
    destruct (Rge_dec preference (-1.0)) as [Hlo|_]; [|reflexivity].
    destruct (Rle_dec preference 1.0) as [Hhi|_]; [|reflexivity].
    exfalso. apply Hout. lra.
Qed.

(** C5.  The constant-mode evaluation returns the dpi-normalised delta
    with both axes scaled by the one gain 0.9 * 0.2968 = 0.26712, for
    every delta, caller data, timestamp and filter; filters of the same
    dpi give the same result whatever their velocity state, the caller
    data and the timestamp. *)
Theorem touchpad_constant_filter_gain (filter : accelerator) u data time :
  fst (touchpad_constant_filter filter u data time)
  = {| nc_x := 0.26712 * nc_x (normalize_for_dpi u (ta_dpi filter));
       nc_y := 0.26712 * nc_y (normalize_for_dpi u (ta_dpi filter)) |}
  /\ 0.9 * TP_MAGIC_SLOWDOWN = 0.26712
  /\ (forall (other : accelerator) data' time',
        ta_dpi other = ta_dpi filter ->
        fst (touchpad_constant_filter other u data' time')
        = fst (touchpad_constant_filter filter u data time)).
Proof.
  unfold touchpad_constant_filter, TP_MAGIC_SLOWDOWN. cbn [fst nc_x nc_y].
  split; [|split].
  - f_equal; lra.
  - lra.
  - intros other data' time' ->. reflexivity.
Qed.

(** The filter an accelerated evaluation leaves behind. *)
Lemma accelerator_filter_post_normalized_leaves (filter filter' : accelerator)
    u data time n :
  accelerator_filter_post_normalized filter u data time = Ok (n, filter') ->
  filter' = set_last_velocity
              (trackers_velocity
                 (trackers_feed (ta_trackers filter) u time) time)
              (set_trackers (trackers_feed (ta_trackers filter) u time)
                 filter).
Proof.
  intros Hn.
  destruct (accelerator_filter_post_normalized_inv _ _ _ _ _ _ Hn)
    as (accelerated & Hg & _).
  destruct (accelerator_filter_generic_inv _ _ _ _ _ _ Hg)
    as (accel_value & Hf & _).
  exact (calculate_acceleration_factor_inv _ _ _ _ _ _ Hf).
Qed.

(** C7, amended.  A call of the accelerated evaluation entry point that
    returns feeds the tracker and stores the new velocity estimate in
    [last_velocity]; it writes no other field: [velocity] keeps its value,
    and so do dpi, speed factor, threshold, [accel], the base object and
    the profile. *)
Theorem accelerator_filter_post_normalized_frame (filter filter' : accelerator)
    u data time n :
  accelerator_filter_post_normalized filter u data time = Ok (n, filter') ->
  ta_trackers filter' = trackers_feed (ta_trackers filter) u time /\
  ta_last_velocity filter' = trackers_velocity (ta_trackers filter') time /\
  ta_velocity filter' = ta_velocity filter /\
  ta_dpi filter' = ta_dpi filter /\
  ta_speed_factor filter' = ta_speed_factor filter /\
  ta_threshold filter' = ta_threshold filter /\
  ta_accel filter' = ta_accel filter /\
  ta_base filter' = ta_base filter /\
  ta_profile filter' = ta_profile filter.
Proof.
  intros Hn.
  rewrite (accelerator_filter_post_normalized_leaves _ _ _ _ _ _ Hn).
  repeat split.
Qed.

(** C10.  The constant-mode evaluation hands back the filter it was
    given, field for field, whatever the caller data and the timestamp,
    which do not enter its result either; and a sequence of calls leaves
    the same filter behind, with the same replies to the other calls and
    the same fault if any, when its constant-mode evaluations are taken
    out. *)
Theorem touchpad_constant_filter_frame (filter : accelerator) u data time
    (cs : list call) :
  snd (touchpad_constant_filter filter u data time) = filter /\
  (forall data' time',
     touchpad_constant_filter filter u data' time'
     = touchpad_constant_filter filter u data time) /\
  run filter (without_constant cs)
  = ('(rs, filter') <- run filter cs ;; Ok (other_replies cs rs, filter')).
Proof.
  split; [reflexivity|]. split; [reflexivity|].
  clear u data time. revert filter.
  induction cs as [|c cs IH]; intros filter; [reflexivity|].
  destruct c as [u d t|u d t|d t|s]; cbn [without_constant List.filter
    is_constant negb run dispatch]; fold (without_constant cs).
  - destruct (accelerator_filter_post_normalized filter u d t)
      as [[n f1]|e]; cbn [bind]; [|reflexivity].
    rewrite IH.
    destruct (run f1 cs) as [[rs f2]|e]; reflexivity.
  - unfold touchpad_constant_filter at 1. cbn [bind].
    rewrite IH.
    destruct (run filter cs) as [[rs f2]|e]; reflexivity.
  - cbn [bind]. rewrite IH.
    destruct (run (touchpad_accelerator_restart filter d t) cs)
      as [[rs f2]|e]; reflexivity.
  - destruct (touchpad_accelerator_set_speed filter s)
      as [[b f1]|e]; cbn [bind]; [|reflexivity].
    rewrite IH.
    destruct (run f1 cs) as [[rs f2]|e]; reflexivity.
Qed.

(** What one call does to the configuration and to the speed factor. *)
Lemma dispatch_inv (filter filter' : accelerator) c r :
  dispatch filter c = Ok (r, filter') ->
  ta_dpi filter' = ta_dpi filter /\
  ta_speed_factor filter'
  = match c with
    | SetSpeed s => speed_factor s
    | _ => ta_speed_factor filter
    end.
Proof.
  destruct c as [u d t|u d t|d t|s]; cbn [dispatch].
  - destruct (accelerator_filter_post_normalized filter u d t)
      as [[n f1]|e] eqn:Hn; cbn [bind]; [|discriminate].
    intros Heq. injection Heq as _ <-.
    rewrite (accelerator_filter_post_normalized_leaves _ _ _ _ _ _ Hn).
    split; reflexivity.
  - unfold touchpad_constant_filter. intros Heq. injection Heq as _ <-.
    tauto.
  - intros Heq. injection Heq as _ <-. split; reflexivity.
  - destruct (touchpad_accelerator_set_speed filter s)
      as [[b f1]|e] eqn:Hs; cbn [bind]; [|discriminate].
    intros Heq. injection Heq as _ <-.
    destruct (touchpad_accelerator_set_speed_inv _ _ _ _ Hs) as (_ & _ & ->).
    split; reflexivity.
Qed.

Lemma run_inv (filter filter' : accelerator) cs rs :
  run filter cs = Ok (rs, filter') ->
  ta_dpi filter' = ta_dpi filter /\
  ta_speed_factor filter'
  = match last_preference cs with
    | Some s => speed_factor s
    | None => ta_speed_factor filter
    end.
Proof.
  revert filter rs. induction cs as [|c cs IH]; intros filter rs.
  - cbn [run last_preference]. intros Heq. injection Heq as _ <-.
    split; reflexivity.
  - cbn [run last_preference].
    destruct (dispatch filter c) as [[r f1]|e] eqn:Hd; cbn [bind];
      [|discriminate].
    destruct (run f1 cs) as [[rs' f2]|e] eqn:Hr; cbn [bind]; [|discriminate].
    intros Heq. injection Heq as _ <-.
    destruct (IH _ _ Hr) as [Hdpi Hsf].
    destruct (dispatch_inv _ _ _ _ Hd) as [Hdpi1 Hsf1].
    split; [congruence|].
    rewrite Hsf. destruct (last_preference cs); [reflexivity|].
    rewrite Hsf1. destruct c; reflexivity.
Qed.

(** C8, amended.  A new filter has the speed factor 0 of its zeroed
    memory, and keeps it until the first [setSpeed]; from then on the
    speed factor is the speed curve applied to the preference of the last
    [setSpeed] call.  No other call changes it. *)
Theorem speed_factor_of_last_preference (dpi threshold value : Z)
    (averaging : bool) (cs : list call) rs (filter : accelerator) :
  run (create_pointer_accelerator_filter_touchpad_pl dpi threshold value
         averaging) cs = Ok (rs, filter) ->
  ta_speed_factor filter
  = match last_preference cs with
    | Some preference => speed_factor preference
    | None => 0
    end.
Proof.
  intros Hrun. destruct (run_inv _ _ _ _ Hrun) as [_ ->]. reflexivity.
Qed.

(** The factor of an accelerated evaluation, and the delta it returns,
    are determined by the dpi, [last_velocity] and the velocity the tracker
    reports. *)
Lemma factor_determined (f g : accelerator) u data time :
  ta_dpi f = ta_dpi g ->
  ta_last_velocity f = ta_last_velocity g ->
  trackers_velocity (trackers_feed (ta_trackers f) u time) time
  = trackers_velocity (trackers_feed (ta_trackers g) u time) time ->
  value_of (calculate_acceleration_factor f u data time)
  = value_of (calculate_acceleration_factor g u data time) /\
  value_of (accelerator_filter_post_normalized f u data time)
  = value_of (accelerator_filter_post_normalized g u data time).
Proof.
  intros Hdpi Hlast Hvel.
  assert (Hfactor :
    value_of (calculate_acceleration_factor f u data time)
    = value_of (calculate_acceleration_factor g u data time)).
  { rewrite !calculate_acceleration_factor_eq.
    rewrite (profile_depends_on_dpi f g Hdpi), Hvel, Hlast.
    destruct (calculate_acceleration_simpsons _ _ _ _ _); reflexivity. }
  split; [exact Hfactor|].
  unfold accelerator_filter_post_normalized, accelerator_filter_generic.
  destruct (calculate_acceleration_factor f u data time)
    as [[v1 a1]|e1] eqn:H1;
  destruct (calculate_acceleration_factor g u data time)
    as [[v2 a2]|e2] eqn:H2; cbn [bind value_of] in *; try congruence.
  injection Hfactor as <-.
  rewrite (calculate_acceleration_factor_inv _ _ _ _ _ _ H1).
  rewrite (calculate_acceleration_factor_inv _ _ _ _ _ _ H2).
  cbn [ta_dpi set_last_velocity set_trackers].
  now rewrite Hdpi.
Qed.

(** C4, amended.  [restart] replaces the tracker history by the reset
    one and nothing else: [last_velocity], dpi, speed factor and the rest
    of the filter stay as they are.  When the filter's [last_velocity] is
    0, the evaluation after a restart at [time] gives the factor and the
    scaled delta
    - of a new filter of the same configuration that was restarted at the
      same [time], provided the reset leaves nothing of the old history to
      see: the tracker reports for the first delta after the reset the
      velocity it reports after the reset of a new history;
    - of a new filter that was not restarted, provided the tracker
      reports for the first delta after the reset the velocity it reports
      for it on a new history. *)
Theorem restart_then_filter_as_new (dpi threshold value : Z)
    (averaging : bool) (cs : list call) rs (filter : accelerator)
    (time : Z) (data : caller_data) u (time' : Z) :
  let new := create_pointer_accelerator_filter_touchpad_pl dpi threshold value
               averaging in
  let restarted := touchpad_accelerator_restart filter data time in
  let new_restarted := touchpad_accelerator_restart new data time in
  run new cs = Ok (rs, filter) ->
  (ta_trackers restarted = trackers_reset (ta_trackers filter) time /\
   ta_last_velocity restarted = ta_last_velocity filter /\
   ta_dpi restarted = dpi /\
   ta_speed_factor restarted = ta_speed_factor filter /\
   ta_base restarted = ta_base filter /\
   ta_threshold restarted = ta_threshold filter /\
   ta_accel restarted = ta_accel filter /\
   ta_velocity restarted = ta_velocity filter /\
   ta_profile restarted = ta_profile filter) /\
  (ta_last_velocity filter = 0 ->
   (trackers_velocity
      (trackers_feed (trackers_reset (ta_trackers filter) time) u time') time'
    = trackers_velocity
        (trackers_feed (trackers_reset (ta_trackers new) time) u time') time'
    ->
    value_of (calculate_acceleration_factor restarted u data time')
    = value_of (calculate_acceleration_factor new_restarted u data time') /\
    value_of (accelerator_filter_post_normalized restarted u data time')
    = value_of (accelerator_filter_post_normalized new_restarted u data
                  time')) /\
   (trackers_velocity
      (trackers_feed (trackers_reset (ta_trackers filter) time) u time') time'
    = trackers_velocity (trackers_feed (ta_trackers new) u time') time' ->
    value_of (calculate_acceleration_factor restarted u data time')
    = value_of (calculate_acceleration_factor new u data time') /\
    value_of (accelerator_filter_post_normalized restarted u data time')
    = value_of (accelerator_filter_post_normalized new u data time'))).
Proof.
  intros new restarted new_restarted Hrun.
  destruct (run_inv _ _ _ _ Hrun) as [Hdpi _].
  split.
  { subst restarted. unfold touchpad_accelerator_restart.
    cbn [ta_trackers ta_last_velocity ta_dpi ta_speed_factor ta_base
         ta_threshold ta_accel ta_velocity ta_profile set_trackers].
    repeat split. exact Hdpi. }
  intros Hlast.
  assert (Hnew : ta_last_velocity new = 0) by (cbn; lra).
  split; intros Hvel; apply factor_determined.
  - subst restarted new_restarted. unfold touchpad_accelerator_restart.
    cbn [ta_dpi set_trackers]. exact Hdpi.
  - subst restarted new_restarted. unfold touchpad_accelerator_restart.
    cbn [ta_last_velocity set_trackers]. now rewrite Hlast, Hnew.
  - exact Hvel.
  - subst restarted. unfold touchpad_accelerator_restart.
    cbn [ta_dpi set_trackers]. exact Hdpi.
  - subst restarted. unfold touchpad_accelerator_restart.
    cbn [ta_last_velocity set_trackers]. now rewrite Hlast, Hnew.
  - exact Hvel.
Qed.

End FilterProperties.

(** ** The speed curve *)

Lemma libm_pow_nonneg x y : 0 <= libm_pow x y.
Proof.
  unfold libm_pow. destruct (Req_dec_T x 0); [lra|].
  unfold Rpower. apply Rlt_le, exp_pos.
Qed.

Lemma libm_pow_pos x y : x <> 0 -> 0 < libm_pow x y.
Proof.
  intros Hx. unfold libm_pow. destruct (Req_dec_T x 0); [contradiction|].
  unfold Rpower. apply exp_pos.
Qed.

Lemma speed_factor_eq s :
  speed_factor s
  = (435837.2 * libm_pow ((s + 1) / 240.4549) 2.377168 + 0.04762636)
    / (1 + libm_pow ((s + 1) / 240.4549) 2.377168).
Proof.
  unfold speed_factor. cbv zeta.
  pose proof (libm_pow_nonneg ((s + 1) / 240.4549) 2.377168).
  field. lra.
Qed.

(** The speed curve is positive everywhere. *)
Lemma speed_factor_pos s : 0 < speed_factor s.
Proof.
  rewrite speed_factor_eq.
  pose proof (libm_pow_nonneg ((s + 1) / 240.4549) 2.377168).
  apply Rdiv_lt_0_compat; nra.
Qed.

(** The preference -1 gives the factor 0.04762636, every other
    preference a greater one. *)
Lemma speed_factor_lowest : speed_factor (-1) = 0.04762636.
Proof.
  rewrite speed_factor_eq. unfold libm_pow.
  destruct (Req_dec_T ((-1 + 1) / 240.4549) 0) as [_|Hne]; [field|].
  exfalso. apply Hne. lra.
Qed.

Lemma speed_factor_above_lowest s : s <> -1 -> 0.04762636 < speed_factor s.
Proof.
  intros Hs. rewrite speed_factor_eq.
  assert (Hx : (s + 1) / 240.4549 <> 0).
  { intros Hz. apply Hs.
    apply (Rmult_eq_compat_r 240.4549) in Hz. field_simplify in Hz; lra. }
  pose proof (libm_pow_pos _ 2.377168 Hx) as Hw.
  apply Rmult_lt_reg_r with (1 + libm_pow ((s + 1) / 240.4549) 2.377168);
    [lra|].
  unfold Rdiv. rewrite Rmult_assoc, Rinv_l by lra. nra.
Qed.

(** ** Evaluation with the reference collaborators *)

Lemma sqrt_right_5 : sqrt (dfc_x right_5 * dfc_x right_5
                           + dfc_y right_5 * dfc_y right_5) = 5.
Proof.
  cbn [dfc_x dfc_y right_5].
  replace (5 * 5 + 0 * 0) with (5 * 5) by ring.
  apply sqrt_square. lra.
Qed.

(** The velocity the reference tracker reports for the first delta of an
    empty history. *)
Lemma reference_velocity_first (filter : @accelerator reference)
    depth anchor sm time :
  ta_trackers filter
  = {| pt_history :=
         {| rh_depth := depth; rh_anchor := anchor; rh_samples := [] |};
       pt_smoothener := sm |} ->
  (0 < depth)%Z ->
  trackers_velocity (trackers_feed (ta_trackers filter) right_5 time) time
  = 5 / IZR ((time - anchor + 1) mod 2 ^ 64).
Proof.
  intros -> Hd.
  cbn [trackers_velocity trackers_feed reference].
  unfold reference_velocity, reference_feed.
  cbn [pt_history rh_samples rh_anchor rh_depth].
  destruct (Z.to_nat depth) as [|n] eqn:Hn; [lia|].
  cbn [firstn]. rewrite sqrt_right_5, firstn_nil. reflexivity.
Qed.

(** Simpson's rule over three profile values. *)
Lemma reference_factor (filter : @accelerator reference) u time fc fl fm :
  let trackers := trackers_feed (ta_trackers filter) u time in
  let velocity := trackers_velocity trackers time in
  touchpad_accel_profile filter tt velocity time = Ok fc ->
  touchpad_accel_profile filter tt (ta_last_velocity filter) time = Ok fl ->
  touchpad_accel_profile filter tt
    ((ta_last_velocity filter + velocity) / 2) time = Ok fm ->
  calculate_acceleration_factor filter u tt time
  = Ok ((fc + fl + 4.0 * fm) / 6.0,
        set_last_velocity velocity (set_trackers trackers filter)).
Proof.
  intros trackers velocity Hc Hl Hm. subst trackers velocity.
  rewrite calculate_acceleration_factor_eq.
  destruct (ta_profile filter). cbn [call_profile].
  change (@calculate_acceleration_simpsons reference)
    with (@reference_simpsons unit).
  unfold reference_simpsons. unfold touchpad_accel_profile in *.
  rewrite Hc. cbn [bind]. rewrite Hl. cbn [bind]. rewrite Hm. cbn [bind].
  reflexivity.
Qed.

(** A 400 dpi filter with an empty history anchored at 0 and no previous
    velocity scales a delta of five units after one millisecond by
    (1 + 0.05 + 4 * 1) / 6. *)
Lemma first_factor_400 (filter : @accelerator reference) depth sm :
  ta_trackers filter
  = {| pt_history := {| rh_depth := depth; rh_anchor := 0; rh_samples := [] |};
       pt_smoothener := sm |} ->
  (0 < depth)%Z ->
  ta_dpi filter = 400%Z -> ta_last_velocity filter = 0 ->
  calculate_acceleration_factor filter right_5 tt 1000
  = Ok ((1.00 + 0.05 + 4.0 * 1.00) / 6.0,
        set_last_velocity
          (trackers_velocity
             (trackers_feed (ta_trackers filter) right_5 1000) 1000)
          (set_trackers (trackers_feed (ta_trackers filter) right_5 1000)
             filter)).
Proof.
  intros Ht Hd Hdpi Hlast.
  pose proof (reference_velocity_first filter depth 0 sm 1000 Ht Hd) as Hv.
  change ((1000 - 0 + 1) mod 2 ^ 64)%Z with 1001%Z in Hv.
  apply reference_factor.
  - apply touchpad_accel_profile_above_last.
    rewrite Hv, Hdpi. unfold speed_mm_per_s, v_us2s. lra.
  - apply touchpad_accel_profile_up_to_first.
    rewrite Hlast, Hdpi. unfold speed_mm_per_s, v_us2s. lra.
  - apply touchpad_accel_profile_above_last.
    rewrite Hv, Hlast, Hdpi. unfold speed_mm_per_s, v_us2s. lra.
Qed.

Lemma new_400_trackers :
  ta_trackers new_400
  = {| pt_history := {| rh_depth := 2; rh_anchor := 0; rh_samples := [] |};
       pt_smoothener := Some {| pds_threshold := 0; pds_value := 0 |} |}.
Proof. reflexivity. Qed.

Lemma new_400_last_velocity : ta_last_velocity new_400 = 0.
Proof. cbn. lra. Qed.

Lemma touchpad_accelerator_set_speed_ok {C : Collaborators}
    (filter : accelerator) s :
  -1 <= s <= 1 ->
  touchpad_accelerator_set_speed filter s
  = Ok (true,
        set_speed_factor (speed_factor s) (set_speed_adjustment s filter)).
Proof.
  intros [Hlo Hhi]. unfold touchpad_accelerator_set_speed.
  destruct (Rge_dec s (-1.0)) as [_|Hn]; [|lra].
  destruct (Rle_dec s 1.0) as [_|Hn]; [|lra].
  reflexivity.
Qed.

Lemma filter_by_factor {C : Collaborators} (filter filter' : accelerator)
    u data time f :
  calculate_acceleration_factor filter u data time = Ok (f, filter') ->
  accelerator_filter_generic filter u data time
  = Ok ({| dfc_x := f * dfc_x u; dfc_y := f * dfc_y u |}, filter') /\
  accelerator_filter_post_normalized filter u data time
  = Ok (normalize_for_dpi {| dfc_x := f * dfc_x u; dfc_y := f * dfc_y u |}
          (ta_dpi filter'), filter').
Proof.
  intros Hf.
  unfold accelerator_filter_post_normalized, accelerator_filter_generic.
  rewrite Hf. split; reflexivity.
Qed.

(** ** Concrete evaluations *)

Lemma touchpad_accel_profile_interpolates_witness :
  speed_mm_per_s (ta_dpi new_400) (60 * 400 / 25400000) = 60 /\
  touchpad_accel_profile new_400 tt (60 * 400 / 25400000) 0 = Ok 0.525.
Proof.
  assert (Hs : speed_mm_per_s (ta_dpi new_400) (60 * 400 / 25400000) = 60).
  { change (ta_dpi new_400) with 400%Z. unfold speed_mm_per_s, v_us2s. lra. }
  split; [exact Hs|].
  rewrite (touchpad_accel_profile_interpolates new_400 tt
             (60 * 400 / 25400000) 0 0 (20.0, 0.05) (100.0, 1.00)).
  - rewrite Hs. cbn [fst snd]. f_equal. lra.
  - reflexivity.
  - reflexivity.
  - rewrite Hs. cbn [fst snd]. lra.
Defined.

Lemma touchpad_accel_profile_at_last_point_witness :
  speed_mm_per_s (ta_dpi new_254) 0.001 = 100 /\
  touchpad_accel_profile new_254 tt 0.001 0 = Fault OutOfBounds.
Proof.
  assert (Hs : speed_mm_per_s (ta_dpi new_254) 0.001 = 100).
  { change (ta_dpi new_254) with 254%Z. unfold speed_mm_per_s, v_us2s. lra. }
  split; [exact Hs|].
  exact (touchpad_accel_profile_at_last_point new_254 tt 0.001 0 Hs).
Defined.

(** C9, at the boundary.  The velocities 0.0006 and 0.001 units/us of a
    254 dpi device convert to 60 and 100 mm/s; the profile has the factor
    0.525 at the first and no factor at the second, where it reads
    outside the table, so the two cannot be compared. *)
Theorem touchpad_accel_profile_no_factor_to_compare :
  speed_mm_per_s (ta_dpi new_254) 0.0006 = 60 /\
  speed_mm_per_s (ta_dpi new_254) 0.001 = 100 /\
  touchpad_accel_profile new_254 tt 0.0006 0 = Ok 0.525 /\
  touchpad_accel_profile new_254 tt 0.001 0 = Fault OutOfBounds.
Proof.
  assert (Hu : speed_mm_per_s (ta_dpi new_254) 0.0006 = 60).
  { change (ta_dpi new_254) with 254%Z. unfold speed_mm_per_s, v_us2s. lra. }
  assert (Hv : speed_mm_per_s (ta_dpi new_254) 0.001 = 100).
  { change (ta_dpi new_254) with 254%Z. unfold speed_mm_per_s, v_us2s. lra. }
  repeat split; trivial.
  - rewrite touchpad_accel_profile_eq, Hu, embedded_between by lra.
    f_equal. lra.
  - rewrite touchpad_accel_profile_eq, Hv. exact embedded_at_last.
Qed.

Lemma touchpad_accelerator_set_speed_spec_witness :
  (exists filter',
     touchpad_accelerator_set_speed new_400 0 = Ok (true, filter') /\
     ta_speed_factor filter'
     = 435837.2 + (0.04762636 - 435837.2)
                  / (1 + libm_pow ((0 + 1) / 240.4549) 2.377168)) /\
  touchpad_accelerator_set_speed new_400 1.5 = Fault AssertionFailed.
Proof.
  split.
  - apply (proj1 (touchpad_accelerator_set_speed_spec new_400 0)). lra.
  - apply (proj2 (touchpad_accelerator_set_speed_spec new_400 1.5)). lra.
Defined.

Lemma touchpad_constant_filter_gain_witness :
  fst (touchpad_constant_filter (touchpad_accelerator_restart new_400 tt 7)
         right_5 tt 99)
  = fst (touchpad_constant_filter new_400 right_5 tt 0).
Proof.
  apply (proj2 (proj2 (touchpad_constant_filter_gain new_400 right_5 tt 0))).
  reflexivity.
Defined.

Lemma new_400_first_filter :
  accelerator_filter_post_normalized new_400 right_5 tt 1000
  = Ok (normalize_for_dpi
          {| dfc_x := (1.00 + 0.05 + 4.0 * 1.00) / 6.0 * dfc_x right_5;
             dfc_y := (1.00 + 0.05 + 4.0 * 1.00) / 6.0 * dfc_y right_5 |}
          400,
        set_last_velocity
          (trackers_velocity
             (trackers_feed (ta_trackers new_400) right_5 1000) 1000)
          (set_trackers (trackers_feed (ta_trackers new_400) right_5 1000)
             new_400)).
Proof.
  assert (Hf := first_factor_400 new_400 2 _ new_400_trackers eq_refl
                  eq_refl new_400_last_velocity).
  exact (proj2 (filter_by_factor _ _ _ _ _ _ Hf)).
Qed.

Lemma new_400_first_velocity :
  trackers_velocity (trackers_feed (ta_trackers new_400) right_5 1000) 1000
  = 5 / 1001.
Proof.
  rewrite (reference_velocity_first new_400 2 0 _ 1000 new_400_trackers)
    by lia.
  reflexivity.
Qed.

Lemma accelerator_filter_post_normalized_frame_witness :
  exists n filter',
    accelerator_filter_post_normalized new_400 right_5 tt 1000
    = Ok (n, filter') /\
    ta_last_velocity filter' = trackers_velocity (ta_trackers filter') 1000 /\
    ta_velocity filter' = ta_velocity new_400 /\
    ta_dpi filter' = ta_dpi new_400 /\
    ta_speed_factor filter' = ta_speed_factor new_400.
Proof.
  eexists. eexists. split; [exact new_400_first_filter|].
  pose proof (accelerator_filter_post_normalized_frame new_400 _ right_5 tt
                1000 _ new_400_first_filter) as Hframe.
  tauto.
Defined.

(** C7, as stated, fails: after the first evaluation of a new filter the
    new estimate 5/1001 units/us is in [last_velocity], while the
    [velocity] field still holds the 0 of its allocation. *)
Lemma velocity_field_is_not_written :
  exists n filter',
    accelerator_filter_post_normalized new_400 right_5 tt 1000
    = Ok (n, filter') /\
    trackers_velocity (ta_trackers filter') 1000 = 5 / 1001 /\
    ta_last_velocity filter' = 5 / 1001 /\
    ta_velocity filter' = 0 /\
    ta_velocity filter' <> trackers_velocity (ta_trackers filter') 1000.
Proof.
  eexists. eexists. split; [exact new_400_first_filter|].
  cbn [ta_trackers ta_last_velocity ta_velocity set_last_velocity
       set_trackers].
  rewrite new_400_first_velocity.
  change (ta_velocity new_400) with 0.
  repeat split; lra.
Qed.

(** C1, at a failing input.  On a new 400 dpi filter [setSpeed (-1)] and
    [setSpeed (1)] store different speed factors, and the evaluation of
    the same first delta gives the same accelerated delta after either:
    the delta is scaled by the smoothed profile factor 5.05/6 alone, the
    stored speed factor is not read. *)
Theorem set_speed_does_not_change_gain :
  exists slow fast accelerated,
    touchpad_accelerator_set_speed new_400 (-1) = Ok (true, slow) /\
    touchpad_accelerator_set_speed new_400 1 = Ok (true, fast) /\
    ta_speed_factor slow < ta_speed_factor fast /\
    value_of (accelerator_filter_generic slow right_5 tt 1000)
    = Ok accelerated /\
    value_of (accelerator_filter_generic fast right_5 tt 1000)
    = Ok accelerated /\
    accelerated = {| dfc_x := 5.05 / 6 * 5; dfc_y := 5.05 / 6 * 0 |}.
Proof.
  assert (Hf := first_factor_400 new_400 2 _ new_400_trackers eq_refl
                  eq_refl new_400_last_velocity).
  assert (Hg := proj1 (filter_by_factor _ _ _ _ _ _ Hf)).
  exists (set_speed_factor (speed_factor (-1))
            (set_speed_adjustment (-1) new_400)),
         (set_speed_factor (speed_factor 1) (set_speed_adjustment 1 new_400)),
         {| dfc_x := (1.00 + 0.05 + 4.0 * 1.00) / 6.0 * dfc_x right_5;
            dfc_y := (1.00 + 0.05 + 4.0 * 1.00) / 6.0 * dfc_y right_5 |}.
  split; [apply touchpad_accelerator_set_speed_ok; lra|].
  split; [apply touchpad_accelerator_set_speed_ok; lra|].
  split.
  { cbn [ta_speed_factor set_speed_factor]. rewrite speed_factor_lowest.
    apply speed_factor_above_lowest. lra. }
  rewrite !accelerator_filter_generic_ignores_speed, Hg.
  repeat split. cbn [dfc_x dfc_y right_5]. f_equal; lra.
Qed.

(** C4, as stated, fails.  A new 400 dpi filter evaluates a delta of five
    units at time 0 and is restarted at time 0.  For the next delta, at
    1000 us, the tracker reports 5/1001 units/us, as it does for that
    delta on a new filter; the restarted filter still holds the previous
    velocity 5 units/us in [last_velocity] and returns the factor 1, the
    new filter returns 5.05/6. *)
Lemma restart_keeps_last_velocity :
  exists rs moved f_restarted after_restarted f_new after_new,
    run new_400 [Filter right_5 tt 0] = Ok (rs, moved) /\
    ta_last_velocity (touchpad_accelerator_restart moved tt 0) = 5 /\
    trackers_velocity
      (trackers_feed
         (ta_trackers (touchpad_accelerator_restart moved tt 0))
         right_5 1000) 1000
    = trackers_velocity
        (trackers_feed (ta_trackers new_400) right_5 1000) 1000 /\
    calculate_acceleration_factor
      (touchpad_accelerator_restart moved tt 0) right_5 tt 1000
    = Ok (f_restarted, after_restarted) /\
    calculate_acceleration_factor new_400 right_5 tt 1000
    = Ok (f_new, after_new) /\
    f_restarted = 1 /\ f_new = 5.05 / 6 /\ f_restarted <> f_new.
Proof.
  (* the first evaluation, at time 0 *)
  assert (Hv0 : trackers_velocity
                  (trackers_feed (ta_trackers new_400) right_5 0) 0 = 5).
  { rewrite (reference_velocity_first new_400 2 0 _ 0 new_400_trackers)
      by lia.
    change ((0 - 0 + 1) mod 2 ^ 64)%Z with 1%Z. lra. }
  assert (Hf0 : calculate_acceleration_factor new_400 right_5 tt 0
                = Ok ((1.00 + 0.05 + 4.0 * 1.00) / 6.0,
                      set_last_velocity
                        (trackers_velocity
                           (trackers_feed (ta_trackers new_400) right_5 0) 0)
                        (set_trackers
                           (trackers_feed (ta_trackers new_400) right_5 0)
                           new_400))).
  { apply reference_factor.
    - apply touchpad_accel_profile_above_last. rewrite Hv0.
      change (ta_dpi new_400) with 400%Z. unfold speed_mm_per_s, v_us2s. lra.
    - apply touchpad_accel_profile_up_to_first.
      rewrite new_400_last_velocity.
      change (ta_dpi new_400) with 400%Z. unfold speed_mm_per_s, v_us2s. lra.
    - apply touchpad_accel_profile_above_last.
      rewrite Hv0, new_400_last_velocity.
      change (ta_dpi new_400) with 400%Z. unfold speed_mm_per_s, v_us2s. lra. }
  pose proof (proj2 (filter_by_factor _ _ _ _ _ _ Hf0)) as Hn0.
  set (moved := set_last_velocity
                  (trackers_velocity
                     (trackers_feed (ta_trackers new_400) right_5 0) 0)
                  (set_trackers
                     (trackers_feed (ta_trackers new_400) right_5 0)
                     new_400)) in *.
  (* the restarted filter *)
  assert (Ht : ta_trackers (touchpad_accelerator_restart moved tt 0)
               = {| pt_history :=
                      {| rh_depth := 2; rh_anchor := 0; rh_samples := [] |};
                    pt_smoothener :=
                      Some {| pds_threshold := 0; pds_value := 0 |} |})
    by reflexivity.
  assert (Hlast : ta_last_velocity (touchpad_accelerator_restart moved tt 0)
                  = 5) by exact Hv0.
  assert (Hv1 : trackers_velocity
                  (trackers_feed
                     (ta_trackers (touchpad_accelerator_restart moved tt 0))
                     right_5 1000) 1000 = 5 / 1001).
  { rewrite (reference_velocity_first _ 2 0 _ 1000 Ht) by lia.
    reflexivity. }
  assert (Hf1 : calculate_acceleration_factor
                  (touchpad_accelerator_restart moved tt 0) right_5 tt 1000
                = Ok ((1.00 + 1.00 + 4.0 * 1.00) / 6.0,
                      set_last_velocity
                        (trackers_velocity
                           (trackers_feed
                              (ta_trackers
                                 (touchpad_accelerator_restart moved tt 0))
                              right_5 1000) 1000)
                        (set_trackers
                           (trackers_feed
                              (ta_trackers
                                 (touchpad_accelerator_restart moved tt 0))
                              right_5 1000)
                           (touchpad_accelerator_restart moved tt 0)))).
  { apply reference_factor.
    - apply touchpad_accel_profile_above_last. rewrite Hv1.
      change (ta_dpi (touchpad_accelerator_restart moved tt 0)) with 400%Z.
      unfold speed_mm_per_s, v_us2s. lra.
    - apply touchpad_accel_profile_above_last. rewrite Hlast.
      change (ta_dpi (touchpad_accelerator_restart moved tt 0)) with 400%Z.
      unfold speed_mm_per_s, v_us2s. lra.
    - apply touchpad_accel_profile_above_last. rewrite Hv1, Hlast.
      change (ta_dpi (touchpad_accelerator_restart moved tt 0)) with 400%Z.
      unfold speed_mm_per_s, v_us2s. lra. }
  (* the new filter *)
  assert (Hf2 := first_factor_400 new_400 2 _ new_400_trackers eq_refl
                   eq_refl new_400_last_velocity).
  do 6 eexists.
  split; [cbn [run dispatch]; rewrite Hn0; reflexivity|].
  split; [exact Hlast|].
  split; [rewrite Hv1, new_400_first_velocity; reflexivity|].
  split; [exact Hf1|].
  split; [exact Hf2|].
  repeat split; lra.
Qed.

(** Two accelerated evaluations on a new 400 dpi filter, five units to
    the right at 1000 us and no motion at 2000 us: the history holds both
    deltas, and the velocity of the second, 0, is in [last_velocity]. *)
Lemma moved_then_rested_400 :
  exists rs filter,
    run new_400 [Filter right_5 tt 1000;
                 Filter {| dfc_x := 0; dfc_y := 0 |} tt 2000]
    = Ok (rs, filter) /\
    ta_trackers filter
    = {| pt_history :=
           {| rh_depth := 2; rh_anchor := 0;
              rh_samples := [({| dfc_x := 0; dfc_y := 0 |}, 2000%Z);
                             (right_5, 1000%Z)] |};
         pt_smoothener := Some {| pds_threshold := 0; pds_value := 0 |} |} /\
    ta_last_velocity filter = 0.
Proof.
  pose proof new_400_first_filter as H1.
  set (f1 := set_last_velocity
               (trackers_velocity
                  (trackers_feed (ta_trackers new_400) right_5 1000) 1000)
               (set_trackers
                  (trackers_feed (ta_trackers new_400) right_5 1000)
                  new_400)) in *.
  set (rest := {| dfc_x := 0; dfc_y := 0 |}).
  assert (Hv2 : trackers_velocity (trackers_feed (ta_trackers f1) rest 2000)
                  2000 = 0).
  { cbn [trackers_velocity trackers_feed reference].
    unfold reference_velocity, reference_feed.
    change (rh_samples (pt_history (ta_trackers f1)))
      with [(right_5, 1000%Z)].
    change (Z.to_nat (rh_depth (pt_history (ta_trackers f1)))) with 2%nat.
    cbn [pt_history rh_samples firstn dfc_x dfc_y rest].
    replace (0 * 0 + 0 * 0) with 0 by ring.
    rewrite sqrt_0. unfold Rdiv. ring. }
  assert (Hl1 : ta_last_velocity f1 = 5 / 1001)
    by exact new_400_first_velocity.
  assert (Hf2 : calculate_acceleration_factor f1 rest tt 2000
                = Ok ((0.05 + 1.00 + 4.0 * 1.00) / 6.0,
                      set_last_velocity
                        (trackers_velocity
                           (trackers_feed (ta_trackers f1) rest 2000) 2000)
                        (set_trackers
                           (trackers_feed (ta_trackers f1) rest 2000) f1))).
  { apply reference_factor.
    - apply touchpad_accel_profile_up_to_first. rewrite Hv2.
      change (ta_dpi f1) with 400%Z. unfold speed_mm_per_s, v_us2s. lra.
    - apply touchpad_accel_profile_above_last. rewrite Hl1.
      change (ta_dpi f1) with 400%Z. unfold speed_mm_per_s, v_us2s. lra.
    - apply touchpad_accel_profile_above_last. rewrite Hv2, Hl1.
      change (ta_dpi f1) with 400%Z. unfold speed_mm_per_s, v_us2s. lra. }
  pose proof (proj2 (filter_by_factor _ _ _ _ _ _ Hf2)) as H2.
  eexists. eexists. split; [|split].
  - cbn [run dispatch]. rewrite H1. cbn [bind]. rewrite H2. reflexivity.
  - reflexivity.
  - exact Hv2.
Qed.

Lemma restart_then_filter_as_new_witness :
  exists rs filter,
    run new_400 [Filter right_5 tt 1000;
                 Filter {| dfc_x := 0; dfc_y := 0 |} tt 2000]
    = Ok (rs, filter) /\
    rh_samples (pt_history (ta_trackers filter))
    = [({| dfc_x := 0; dfc_y := 0 |}, 2000%Z); (right_5, 1000%Z)] /\
    rh_samples
      (pt_history (ta_trackers (touchpad_accelerator_restart filter tt 3000)))
    = [] /\
    ta_last_velocity (touchpad_accelerator_restart filter tt 3000) = 0 /\
    ta_dpi (touchpad_accelerator_restart filter tt 3000) = 400%Z /\
    value_of (calculate_acceleration_factor
                (touchpad_accelerator_restart filter tt 3000)
                right_5 tt 4000)
    = value_of (calculate_acceleration_factor
                  (touchpad_accelerator_restart new_400 tt 3000)
                  right_5 tt 4000).
Proof.
  destruct moved_then_rested_400 as (rs & filter & Hrun & Hsamples & Hlast).
  exists rs, filter.
  destruct (restart_then_filter_as_new 400 0 0 false _ rs filter 3000 tt
              right_5 4000 Hrun)
    as [(Htr & Hlv & Hdpi & _) Hcompare].
  split; [exact Hrun|]. split; [rewrite Hsamples; reflexivity|].
  split; [rewrite Htr; reflexivity|].
  split; [rewrite Hlv; exact Hlast|].
  split; [exact Hdpi|].
  apply (proj1 (Hcompare Hlast)).
  rewrite Hsamples. reflexivity.
Defined.

(** The anchor of a reset history enters the first velocity: a new
    400 dpi filter restarted at 99000 us reports 5/1001 units/us for a
    delta of five units at 100000 us and returns the factor 5.05/6, a new
    filter that was not restarted reports 5/100001 units/us and returns
    0.05; both have [last_velocity] 0. *)
Lemma restart_anchor_enters_velocity :
  exists f_restarted after_restarted f_new after_new,
    ta_last_velocity (touchpad_accelerator_restart new_400 tt 99000) = 0 /\
    calculate_acceleration_factor
      (touchpad_accelerator_restart new_400 tt 99000) right_5 tt 100000
    = Ok (f_restarted, after_restarted) /\
    calculate_acceleration_factor new_400 right_5 tt 100000
    = Ok (f_new, after_new) /\
    f_restarted = 5.05 / 6 /\ f_new = 0.05.
Proof.
  set (restarted := touchpad_accelerator_restart new_400 tt 99000).
  assert (Ht : ta_trackers restarted
               = {| pt_history :=
                      {| rh_depth := 2; rh_anchor := 99000;
                         rh_samples := [] |};
                    pt_smoothener :=
                      Some {| pds_threshold := 0; pds_value := 0 |} |})
    by reflexivity.
  assert (Hlast : ta_last_velocity restarted = 0)
    by exact new_400_last_velocity.
  assert (Hv1 : trackers_velocity
                  (trackers_feed (ta_trackers restarted) right_5 100000)
                  100000 = 5 / 1001).
  { rewrite (reference_velocity_first _ 2 99000 _ 100000 Ht) by lia.
    reflexivity. }
  assert (Hv2 : trackers_velocity
                  (trackers_feed (ta_trackers new_400) right_5 100000)
                  100000 = 5 / 100001).
  { rewrite (reference_velocity_first _ 2 0 _ 100000 new_400_trackers)
      by lia.
    reflexivity. }
  assert (Hf1 : calculate_acceleration_factor restarted right_5 tt 100000
                = Ok ((1.00 + 0.05 + 4.0 * 1.00) / 6.0,
                      set_last_velocity
                        (trackers_velocity
                           (trackers_feed (ta_trackers restarted) right_5
                              100000) 100000)
                        (set_trackers
                           (trackers_feed (ta_trackers restarted) right_5
                              100000) restarted))).
  { apply reference_factor.
    - apply touchpad_accel_profile_above_last. rewrite Hv1.
      change (ta_dpi restarted) with 400%Z. unfold speed_mm_per_s, v_us2s.
      lra.
    - apply touchpad_accel_profile_up_to_first. rewrite Hlast.
      change (ta_dpi restarted) with 400%Z. unfold speed_mm_per_s, v_us2s.
      lra.
    - apply touchpad_accel_profile_above_last. rewrite Hv1, Hlast.
      change (ta_dpi restarted) with 400%Z. unfold speed_mm_per_s, v_us2s.
      lra. }
  assert (Hf2 : calculate_acceleration_factor new_400 right_5 tt 100000
                = Ok ((0.05 + 0.05 + 4.0 * 0.05) / 6.0,
                      set_last_velocity
                        (trackers_velocity
                           (trackers_feed (ta_trackers new_400) right_5
                              100000) 100000)
                        (set_trackers
                           (trackers_feed (ta_trackers new_400) right_5
                              100000) new_400))).
  { apply reference_factor.
    - apply touchpad_accel_profile_up_to_first. rewrite Hv2.
      change (ta_dpi new_400) with 400%Z. unfold speed_mm_per_s, v_us2s. lra.
    - apply touchpad_accel_profile_up_to_first.
      rewrite new_400_last_velocity.
      change (ta_dpi new_400) with 400%Z. unfold speed_mm_per_s, v_us2s. lra.
    - apply touchpad_accel_profile_up_to_first.
      rewrite Hv2, new_400_last_velocity.
      change (ta_dpi new_400) with 400%Z. unfold speed_mm_per_s, v_us2s.
      lra. }
  do 4 eexists.
  split; [exact Hlast|]. split; [exact Hf1|]. split; [exact Hf2|].
  split; lra.
Qed.

(** C8, as stated, fails: the speed factor of a new filter is 0, which
    the speed curve gives for no preference at all. *)
Lemma new_speed_factor_is_not_on_the_curve :
  exists rs filter,
    run new_400 [] = Ok (rs, filter) /\
    ta_speed_factor filter = 0 /\
    ~ exists preference, ta_speed_factor filter = speed_factor preference.
Proof.
  exists [], new_400. repeat split.
  intros [preference Hp]. change (ta_speed_factor new_400) with 0 in Hp.
  pose proof (speed_factor_pos preference). lra.
Qed.

Lemma speed_factor_of_last_preference_witness :
  exists rs filter,
    run new_400 [SetSpeed 0.5; Restart tt 2000; SetSpeed (-0.25);
                 FilterConstant right_5 tt 3000]
    = Ok (rs, filter) /\
    ta_speed_factor filter = speed_factor (-0.25).
Proof.
  assert (Hrun :
    run new_400 [SetSpeed 0.5; Restart tt 2000; SetSpeed (-0.25);
                 FilterConstant right_5 tt 3000]
    = Ok ([Accepted true; Done; Accepted true;
           Coords (fst (touchpad_constant_filter new_400 right_5 tt 3000))],
          set_speed_factor (speed_factor (-0.25))
            (set_speed_adjustment (-0.25)
               (touchpad_accelerator_restart
                  (set_speed_factor (speed_factor 0.5)
                     (set_speed_adjustment 0.5 new_400)) tt 2000)))).
  { cbn [run dispatch].
    rewrite (touchpad_accelerator_set_speed_ok new_400 0.5) by lra.
    cbn [bind].
    rewrite (touchpad_accelerator_set_speed_ok _ (-0.25)) by lra.
    reflexivity. }
  eexists. eexists. split; [exact Hrun|].
  exact (speed_factor_of_last_preference 400 0 0 false _ _ _ Hrun).
Defined.

(** * Further properties of the profile *)

(** The profile of the embedded table in closed form, away from the
    speed of the last control point. *)
Lemma embedded_value speed :
  speed <> 100 ->
  piecewise_linear points i_max speed
  = Ok (if Rlt_dec speed 20 then 0.05
        else if Rlt_dec speed 100
             then 0.05 + (1.00 - 0.05) * (speed - 20.0) / (100.0 - 20.0)
             else 1.00).
Proof.
  intros Hne.
  destruct (Rlt_dec speed 20) as [Hlo|Hlo]; [now apply embedded_below|].
  destruct (Rlt_dec speed 100) as [Hhi|Hhi].
  - apply embedded_between. lra.
  - apply embedded_above. lra.
Qed.

Lemma embedded_inv speed f :
  piecewise_linear points i_max speed = Ok f ->
  speed <> 100 /\
  f = (if Rlt_dec speed 20 then 0.05
       else if Rlt_dec speed 100
            then 0.05 + (1.00 - 0.05) * (speed - 20.0) / (100.0 - 20.0)
            else 1.00).
Proof.
  intros Hf.
  assert (Hne : speed <> 100).
  { intros ->. rewrite embedded_at_last in Hf. discriminate. }
  split; [exact Hne|].
  rewrite (embedded_value speed Hne) in Hf. now injection Hf as <-.
Qed.

(** X1.  Up to and including the speed of the first control point,
    20 mm/s, the profile returns the first factor, 0.05; at 20 mm/s itself
    the comparison [speed_in < points[0][0]] fails and the interpolation
    gives the same value. *)
Theorem profile_lower_clamp {H D} (filter : touchpad_accelerator H)
    (data : D) (velocity : R) (time : Z) :
  speed_mm_per_s (ta_dpi filter) velocity <= 20 ->
  touchpad_accel_profile filter data velocity time = Ok 0.05.
Proof.
  intros Hs. rewrite touchpad_accel_profile_eq, embedded_value by lra.
  destruct (Rlt_dec (speed_mm_per_s (ta_dpi filter) velocity) 20);
    [reflexivity|].
  destruct (Rlt_dec (speed_mm_per_s (ta_dpi filter) velocity) 100);
    f_equal; lra.
Qed.

Lemma profile_lower_clamp_witness :
  speed_mm_per_s (ta_dpi new_254) 0.0002 = 20 /\
  touchpad_accel_profile new_254 tt 0.0002 0 = Ok 0.05.
Proof.
  assert (Hs : speed_mm_per_s (ta_dpi new_254) 0.0002 = 20).
  { change (ta_dpi new_254) with 254%Z. unfold speed_mm_per_s, v_us2s. lra. }
  split; [exact Hs|].
  apply (profile_lower_clamp new_254 tt 0.0002 0). rewrite Hs. lra.
Defined.

(** X2.  Strictly above the speed of the last control point, 100 mm/s,
    the profile returns the last factor, 1.00. *)
Theorem profile_upper_clamp {H D} (filter : touchpad_accelerator H)
    (data : D) (velocity : R) (time : Z) :
  100 < speed_mm_per_s (ta_dpi filter) velocity ->
  touchpad_accel_profile filter data velocity time = Ok 1.00.
Proof.
  intros Hs. rewrite touchpad_accel_profile_eq. apply embedded_above. lra.
Qed.

Lemma profile_upper_clamp_witness :
  touchpad_accel_profile new_254 tt 0.002 0 = Ok 1.00.
Proof.
  apply (profile_upper_clamp new_254 tt 0.002 0).
  change (ta_dpi new_254) with 254%Z. unfold speed_mm_per_s, v_us2s. lra.
Defined.

(** X3.  The profile fails for exactly one converted speed, that of the
    last control point (100 mm/s), and then by the read outside the
    table; at every other speed it returns a factor. *)
Theorem profile_faults_only_at_last_point {H D}
    (filter : touchpad_accelerator H) (data : D) (velocity : R) (time : Z)
    (e : fault) :
  touchpad_accel_profile filter data velocity time = Fault e
  <-> speed_mm_per_s (ta_dpi filter) velocity = 100 /\ e = OutOfBounds.
Proof.
  rewrite touchpad_accel_profile_eq. split.
  - intros Hf.
    destruct (Req_dec_T (speed_mm_per_s (ta_dpi filter) velocity) 100)
      as [Heq|Hne].
    + split; [exact Heq|]. rewrite Heq, embedded_at_last in Hf. congruence.
    + rewrite (embedded_value _ Hne) in Hf. discriminate.
  - intros [-> ->]. exact embedded_at_last.
Qed.

(** X4.  Every factor the profile returns lies between the first and the
    last factor of the table: 0.05 <= factor <= 1.00. *)
Theorem profile_factor_range {H D} (filter : touchpad_accelerator H)
    (data : D) (velocity : R) (time : Z) (factor : R) :
  touchpad_accel_profile filter data velocity time = Ok factor ->
  0.05 <= factor <= 1.00.
Proof.
  rewrite touchpad_accel_profile_eq. intros Hf.
  destruct (embedded_inv _ _ Hf) as [_ ->].
  destruct (Rlt_dec (speed_mm_per_s (ta_dpi filter) velocity) 20); [lra|].
  destruct (Rlt_dec (speed_mm_per_s (ta_dpi filter) velocity) 100); lra.
Qed.

Lemma profile_factor_range_witness :
  touchpad_accel_profile new_400 tt (60 * 400 / 25400000) 0 = Ok 0.525 /\
  0.05 <= 0.525 <= 1.00.
Proof.
  assert (Hp : touchpad_accel_profile new_400 tt (60 * 400 / 25400000) 0
               = Ok 0.525).
  { rewrite touchpad_accel_profile_eq.
    change (ta_dpi new_400) with 400%Z.
    rewrite embedded_between by (unfold speed_mm_per_s, v_us2s; lra).
    unfold speed_mm_per_s, v_us2s. f_equal. lra. }
  split; [exact Hp|].
  exact (profile_factor_range new_400 tt (60 * 400 / 25400000) 0 0.525 Hp).
Defined.

(** * Further properties of the filter, for all collaborators *)

Section MoreFilterProperties.

Context {C : Collaborators}.

(** An accelerated evaluation and a change of the speed fields do not see
    each other. *)
Lemma accelerator_filter_post_normalized_speed (filter : accelerator)
    s x u data time :
  accelerator_filter_post_normalized
    (set_speed_factor x (set_speed_adjustment s filter)) u data time
  = ('(n, filter') <- accelerator_filter_post_normalized filter u data time ;;
     Ok (n, set_speed_factor x (set_speed_adjustment s filter'))).
Proof.
  unfold accelerator_filter_post_normalized, accelerator_filter_generic.
  rewrite !calculate_acceleration_factor_eq.
  cbn [ta_trackers ta_last_velocity set_speed_factor set_speed_adjustment].
  rewrite (profile_depends_on_dpi
             (set_speed_factor x (set_speed_adjustment s filter)) filter)
    by reflexivity.
  destruct (calculate_acceleration_simpsons _ _ _ _ _); reflexivity.
Qed.

(** X9.  The last speed setting wins: after a successful [set_speed] a
    second one, successful or not, gives what it gives on the original
    filter; in particular setting the same preference twice is setting it
    once. *)
Theorem set_speed_last_wins (filter filter' : accelerator) s1 s2 b :
  touchpad_accelerator_set_speed filter s1 = Ok (b, filter') ->
  touchpad_accelerator_set_speed filter' s2
  = touchpad_accelerator_set_speed filter s2.
Proof.
  intros H1.
  destruct (touchpad_accelerator_set_speed_inv _ _ _ _ H1) as (_ & _ & ->).
  unfold touchpad_accelerator_set_speed.
  destruct (Rge_dec s2 (-1.0)); [|reflexivity].
  destruct (Rle_dec s2 1.0); reflexivity.
Qed.

(** X10.  No sequence of calls changes the configuration: dpi, threshold,
    [accel], the [velocity] field, the profile and the interface table of
    the filter it leaves behind are those of the filter it started on;
    and every call of a sequence that returns has got its reply. *)
Theorem run_keeps_configuration (filter filter' : accelerator) cs rs :
  run filter cs = Ok (rs, filter') ->
  ta_dpi filter' = ta_dpi filter /\
  ta_threshold filter' = ta_threshold filter /\
  ta_accel filter' = ta_accel filter /\
  ta_velocity filter' = ta_velocity filter /\
  ta_profile filter' = ta_profile filter /\
  mf_interface (ta_base filter') = mf_interface (ta_base filter) /\
  length rs = length cs.
Proof.
  revert filter rs. induction cs as [|c cs IH]; intros filter rs.
  - cbn [run]. intros Heq. injection Heq as <- <-. repeat split.
  - cbn [run].
    destruct (dispatch filter c) as [[r f1]|e] eqn:Hd; cbn [bind];
      [|discriminate].
    destruct (run f1 cs) as [[rs' f2]|e] eqn:Hr; cbn [bind]; [|discriminate].
    intros Heq. injection Heq as <- <-.
    destruct (IH _ _ Hr) as (-> & -> & -> & -> & -> & -> & Hlen).
    cbn [length]. rewrite Hlen. clear IH Hr Hlen.
    destruct c as [u d t|u d t|d t|s]; cbn [dispatch] in Hd.
    + destruct (accelerator_filter_post_normalized filter u d t)
        as [[n f]|e] eqn:Hn; cbn [bind] in Hd; [|discriminate].
      injection Hd as _ <-.
      rewrite (accelerator_filter_post_normalized_leaves _ _ _ _ _ _ Hn).
      repeat split.
    + unfold touchpad_constant_filter in Hd. injection Hd as _ <-.
      repeat split.
    + injection Hd as _ <-. repeat split.
    + destruct (touchpad_accelerator_set_speed filter s)
        as [[b f]|e] eqn:Hs; cbn [bind] in Hd; [|discriminate].
      injection Hd as _ <-.
      destruct (touchpad_accelerator_set_speed_inv _ _ _ _ Hs)
        as (_ & _ & ->).
      repeat split.
Qed.

(** X11.  In every filter a sequence of calls on a new filter leaves
    behind, the stored speed adjustment is the preference of the last
    [set_speed] call, or 0 when there was none, and lies in [-1, 1]; a
    sequence with a preference outside [-1, 1] does not return. *)
Theorem speed_adjustment_in_range (dpi threshold value : Z)
    (averaging : bool) (cs : list call) rs (filter : accelerator) :
  run (create_pointer_accelerator_filter_touchpad_pl dpi threshold value
         averaging) cs = Ok (rs, filter) ->
  mf_speed_adjustment (ta_base filter)
  = match last_preference cs with
    | Some preference => preference
    | None => 0
    end /\
  -1 <= mf_speed_adjustment (ta_base filter) <= 1 /\
  Forall (fun c => match c with
                   | SetSpeed s => -1 <= s <= 1
                   | _ => True
                   end) cs.
Proof.
  assert (Hgen : forall cs (start : accelerator) rs filter,
    run start cs = Ok (rs, filter) ->
    mf_speed_adjustment (ta_base filter)
    = match last_preference cs with
      | Some preference => preference
      | None => mf_speed_adjustment (ta_base start)
      end /\
    Forall (fun c => match c with
                     | SetSpeed s => -1 <= s <= 1
                     | _ => True
                     end) cs).
  { clear. induction cs as [|c cs IH]; intros start rs filter.
    - cbn [run last_preference]. intros Heq. injection Heq as _ <-.
      split; [reflexivity|constructor].
    - cbn [run last_preference].
      destruct (dispatch start c) as [[r f1]|e] eqn:Hd; cbn [bind];
        [|discriminate].
      destruct (run f1 cs) as [[rs' f2]|e] eqn:Hr; cbn [bind];
        [|discriminate].
      intros Heq. injection Heq as _ <-.
      destruct (IH _ _ _ Hr) as [Hadj Hall]. rewrite Hadj.
      destruct c as [u d t|u d t|d t|s]; cbn [dispatch] in Hd.
      + destruct (accelerator_filter_post_normalized start u d t)
          as [[n f]|e] eqn:Hn; cbn [bind] in Hd; [|discriminate].
        injection Hd as _ <-.
        rewrite (accelerator_filter_post_normalized_leaves _ _ _ _ _ _ Hn).
        split; [destruct (last_preference cs); reflexivity|now constructor].
      + unfold touchpad_constant_filter in Hd. injection Hd as _ <-.
        split; [destruct (last_preference cs); reflexivity|now constructor].
      + injection Hd as _ <-. split; [destruct (last_preference cs); reflexivity|now constructor].
      + destruct (touchpad_accelerator_set_speed start s)
          as [[b f]|e] eqn:Hs; cbn [bind] in Hd; [|discriminate].
        injection Hd as _ <-.
        destruct (touchpad_accelerator_set_speed_inv _ _ _ _ Hs)
          as (Hrange & _ & ->).
        split; [|now constructor].
        destruct (last_preference cs); reflexivity. }
  intros Hrun. destruct (Hgen _ _ _ _ Hrun) as [Hadj Hall].
  split; [exact Hadj|]. split; [|exact Hall].
  rewrite Hadj. clear Hadj Hrun.
  induction Hall as [|c cs Hc Hall IH]; cbn [last_preference].
  - cbn. lra.
  - destruct (last_preference cs) as [p|].
    + exact IH.
    + destruct c; cbn; lra.
Qed.

(** X12.  Only the accelerated evaluation writes [last_velocity], and
    only it and [restart] touch the trackers: a sequence of calls without
    accelerated evaluations leaves [last_velocity] as it was, and one of
    constant-mode evaluations and speed settings alone leaves the
    trackers as they were. *)
Theorem history_written_by_filter_and_restart (filter filter' : accelerator)
    cs rs :
  run filter cs = Ok (rs, filter') ->
  (Forall (fun c => match c with
                    | Filter _ _ _ => False
                    | _ => True
                    end) cs ->
   ta_last_velocity filter' = ta_last_velocity filter) /\
  (Forall (fun c => match c with
                    | Filter _ _ _ | Restart _ _ => False
                    | _ => True
                    end) cs ->
   ta_trackers filter' = ta_trackers filter).
Proof.
  revert filter rs. induction cs as [|c cs IH]; intros filter rs.
  - cbn [run]. intros Heq. injection Heq as _ <-. split; reflexivity.
  - cbn [run].
    destruct (dispatch filter c) as [[r f1]|e] eqn:Hd; cbn [bind];
      [|discriminate].
    destruct (run f1 cs) as [[rs' f2]|e] eqn:Hr; cbn [bind]; [|discriminate].
    intros Heq. injection Heq as _ <-.
    destruct (IH _ _ Hr) as [IHv IHt]. clear IH Hr.
    assert (Hstep :
      match c with
      | Filter _ _ _ => True
      | Restart _ _ => ta_last_velocity f1 = ta_last_velocity filter
      | _ => ta_last_velocity f1 = ta_last_velocity filter /\
             ta_trackers f1 = ta_trackers filter
      end).
    { destruct c as [u d t|u d t|d t|s]; cbn [dispatch] in Hd; trivial.
      - unfold touchpad_constant_filter in Hd. injection Hd as _ <-.
        split; reflexivity.
      - injection Hd as _ <-. reflexivity.
      - destruct (touchpad_accelerator_set_speed filter s)
          as [[b f]|e] eqn:Hs; cbn [bind] in Hd; [|discriminate].
        injection Hd as _ <-.
        destruct (touchpad_accelerator_set_speed_inv _ _ _ _ Hs)
          as (_ & _ & ->).
        split; reflexivity. }
    split; intros Hall; inversion Hall as [|c' cs' Hc Hcs]; subst.
    + rewrite (IHv Hcs). destruct c; try contradiction; tauto.
    + rewrite (IHt Hcs). destruct c; try contradiction; tauto.
Qed.


(** X14.  A speed setting within [-1, 1] commutes with every other call:
    made before or after an accelerated evaluation, a constant-mode
    evaluation or a restart, it leaves the same filter behind, with the
    same two replies and the same fault if the evaluation fails. *)
Theorem set_speed_commutes (filter : accelerator) s c :
  -1 <= s <= 1 ->
  (forall s', c <> SetSpeed s') ->
  run filter [c; SetSpeed s]
  = ('(rs, filter') <- run filter [SetSpeed s; c] ;; Ok (rev rs, filter')).
Proof.
  intros Hs Hc. cbn [run dispatch].
  rewrite (touchpad_accelerator_set_speed_ok filter s Hs). cbn [bind].
  destruct c as [u d t|u d t|d t|s']; cbn [dispatch].
  - rewrite accelerator_filter_post_normalized_speed.
    destruct (accelerator_filter_post_normalized filter u d t)
      as [[n f1]|e]; cbn [bind]; [|reflexivity].
    rewrite (touchpad_accelerator_set_speed_ok f1 s Hs). reflexivity.
  - unfold touchpad_constant_filter. cbn [bind].
    rewrite (touchpad_accelerator_set_speed_ok filter s Hs). reflexivity.
  - cbn [bind].
    rewrite (touchpad_accelerator_set_speed_ok _ s Hs). reflexivity.
  - exfalso. now apply (Hc s').
Qed.

(** X15.  Constant-mode evaluations, restarts and speed settings within
    [-1, 1] never fail: a sequence of such calls returns on every
    filter. *)
Theorem run_without_filter_returns (filter : accelerator) cs :
  Forall (fun c => match c with
                   | Filter _ _ _ => False
                   | SetSpeed s => -1 <= s <= 1
                   | _ => True
                   end) cs ->
  exists rs filter', run filter cs = Ok (rs, filter').
Proof.
  intros Hall. revert filter.
  induction Hall as [|c cs Hc Hall IH]; intros filter.
  - exists [], filter. reflexivity.
  - destruct c as [u d t|u d t|d t|s]; [contradiction| | |]; cbn [run dispatch].
    + unfold touchpad_constant_filter. cbn [bind].
      destruct (IH filter) as (rs & f' & ->). cbn [bind].
      eexists. eexists. reflexivity.
    + cbn [bind].
      destruct (IH (touchpad_accelerator_restart filter d t))
        as (rs & f' & ->). cbn [bind].
      eexists. eexists. reflexivity.
    + rewrite (touchpad_accelerator_set_speed_ok filter s Hc). cbn [bind].
      destruct (IH (set_speed_factor (speed_factor s)
                      (set_speed_adjustment s filter)))
        as (rs & f' & ->). cbn [bind].
      eexists. eexists. reflexivity.
Qed.

End MoreFilterProperties.

(** ** Concrete evaluations, continued *)

(** A speed setting, the first accelerated evaluation and a restart on a
    new 400 dpi filter. *)
Lemma mixed_run_400 :
  exists n filter,
    run new_400 [SetSpeed 0.5; Filter right_5 tt 1000; Restart tt 2000]
    = Ok ([Accepted true; Coords n; Done],
          touchpad_accelerator_restart
            (set_speed_factor (speed_factor 0.5)
               (set_speed_adjustment 0.5 filter)) tt 2000) /\
    accelerator_filter_post_normalized new_400 right_5 tt 1000
    = Ok (n, filter).
Proof.
  eexists. eexists. split; [|exact new_400_first_filter].
  cbn [run dispatch].
  rewrite (touchpad_accelerator_set_speed_ok new_400 0.5) by lra.
  cbn [bind].
  rewrite accelerator_filter_post_normalized_speed, new_400_first_filter.
  reflexivity.
Qed.

(** A speed setting and a constant-mode evaluation on a new 400 dpi
    filter. *)
Lemma quiet_run_400 :
  run new_400 [SetSpeed 0.5; FilterConstant right_5 tt 3000]
  = Ok ([Accepted true;
         Coords (fst (touchpad_constant_filter new_400 right_5 tt 3000))],
        set_speed_factor (speed_factor 0.5)
          (set_speed_adjustment 0.5 new_400)).
Proof.
  cbn [run dispatch].
  rewrite (touchpad_accelerator_set_speed_ok new_400 0.5) by lra.
  reflexivity.
Qed.

Lemma set_speed_last_wins_witness :
  touchpad_accelerator_set_speed
    (set_speed_factor (speed_factor 0.5) (set_speed_adjustment 0.5 new_400))
    (-0.25)
  = touchpad_accelerator_set_speed new_400 (-0.25).
Proof.
  apply (set_speed_last_wins new_400 _ 0.5 (-0.25) true).
  apply touchpad_accelerator_set_speed_ok. lra.
Defined.

Lemma run_keeps_configuration_witness :
  exists rs filter,
    run new_400 [SetSpeed 0.5; Filter right_5 tt 1000; Restart tt 2000]
    = Ok (rs, filter) /\
    ta_dpi filter = 400%Z /\ ta_threshold filter = 130 /\
    ta_accel filter = 0 /\ ta_velocity filter = 0 /\ length rs = 3%nat.
Proof.
  destruct mixed_run_400 as (n & f & Hrun & _).
  eexists. eexists. split; [exact Hrun|].
  destruct (run_keeps_configuration new_400 _ _ _ Hrun)
    as (Hdpi & Hthr & Hacc & Hvel & _ & _ & Hlen).
  rewrite Hdpi, Hthr, Hacc, Hvel, Hlen. repeat split.
Defined.

Lemma speed_adjustment_in_range_witness :
  exists rs filter,
    run new_400 [SetSpeed 0.5; Filter right_5 tt 1000; Restart tt 2000]
    = Ok (rs, filter) /\
    mf_speed_adjustment (ta_base filter) = 0.5 /\
    -1 <= mf_speed_adjustment (ta_base filter) <= 1.
Proof.
  destruct mixed_run_400 as (n & f & Hrun & _).
  eexists. eexists. split; [exact Hrun|].
  destruct (speed_adjustment_in_range 400 0 0 false _ _ _ Hrun)
    as (Hadj & Hrange & _).
  split; [exact Hadj|exact Hrange].
Defined.

Lemma history_written_by_filter_and_restart_witness :
  exists rs filter,
    run new_400 [SetSpeed 0.5; FilterConstant right_5 tt 3000]
    = Ok (rs, filter) /\
    ta_last_velocity filter = ta_last_velocity new_400 /\
    ta_trackers filter = ta_trackers new_400.
Proof.
  eexists. eexists. split; [exact quiet_run_400|].
  destruct (history_written_by_filter_and_restart new_400 _ _ _ quiet_run_400)
    as [Hv Ht].
  split; [apply Hv|apply Ht]; repeat constructor.
Defined.


Lemma set_speed_commutes_witness :
  run new_400 [Restart tt 7; SetSpeed 0.5]
  = ('(rs, filter) <- run new_400 [SetSpeed 0.5; Restart tt 7] ;;
     Ok (rev rs, filter)).
Proof.
  apply (@set_speed_commutes reference new_400 0.5 (@Restart reference tt 7)).
  - lra.
  - intros s' Heq. discriminate Heq.
Defined.

Lemma run_without_filter_returns_witness :
  exists rs filter,
    run new_400 [SetSpeed 0.5; Restart tt 7; FilterConstant right_5 tt 9]
    = Ok (rs, filter).
Proof.
  apply (run_without_filter_returns new_400).
  repeat constructor; lra.
Defined.
